(** * Statement analyser: format detection, line parsers, normaliser, categoriser

    A shallow embedding of [app4.py].  Text is modelled as [string], whose
    characters stand for the code points 0..255; the character classes of
    Python's [str] methods and of [re] are written out for that range.
    The pandas data frame is a list of rows with typed cells. *)

From Stdlib Require Import List Bool Arith ZArith QArith Lia Ascii String.
Import ListNotations.
Local Open Scope string_scope.
Local Open Scope list_scope.
Local Open Scope nat_scope.

(* ------------------------------------------------------------------ *)
(** ** Python [str] primitives *)

Module Text.

Definition code (c : ascii) : nat := nat_of_ascii c.

Definition between (lo hi : nat) (c : ascii) : bool :=
  (lo <=? code c) && (code c <=? hi).

(** [str.isspace] on one character: TAB..CR, FS..US, space, NEL, NBSP. *)
Definition isspace (c : ascii) : bool :=
  between 9 13 c || between 28 32 c || (code c =? 133) || (code c =? 160).

(** [str.lower] on one character: A-Z and the Latin-1 capitals
    (all of 0xC0..0xDE but the multiplication sign 0xD7). *)
Definition lower_char (c : ascii) : ascii :=
  if between 65 90 c || (between 192 222 c && negb (code c =? 215))
  then ascii_of_nat (code c + 32)
  else c.

Fixpoint lower (s : string) : string :=
  match s with
  | EmptyString => EmptyString
  | String c s' => String (lower_char c) (lower s')
  end.

(** Character comparison, exact or ignoring case. *)
Definition same_char (ignore_case : bool) (a b : ascii) : bool :=
  if ignore_case then Ascii.eqb (lower_char a) (lower_char b) else Ascii.eqb a b.

(** [text.startswith(pat)], optionally ignoring case. *)
Fixpoint starts_with (ignore_case : bool) (pat text : string) : bool :=
  match pat, text with
  | EmptyString, _ => true
  | String p pat', String c text' =>
      same_char ignore_case p c && starts_with ignore_case pat' text'
  | String _ _, EmptyString => false
  end.

(** [pat in text] (a search at every position), optionally ignoring case. *)
Fixpoint find (ignore_case : bool) (pat text : string) : bool :=
  starts_with ignore_case pat text ||
  match text with
  | EmptyString => false
  | String _ text' => find ignore_case pat text'
  end.

Definition contains (pat text : string) : bool := find false pat text.

(** [text.replace(old, new)]: every non-overlapping occurrence, leftmost
    first; [skip] counts the characters of an occurrence still to pass. *)
Fixpoint replace_from (ignore_case : bool) (old new : string) (skip : nat)
         (text : string) : string :=
  match text with
  | EmptyString => EmptyString
  | String c text' =>
      match skip with
      | S k => replace_from ignore_case old new k text'
      | O =>
          if starts_with ignore_case old text
          then new ++ replace_from ignore_case old new (String.length old - 1) text'
          else String c (replace_from ignore_case old new 0 text')
      end
  end.

Definition replace (ignore_case : bool) (old new text : string) : string :=
  replace_from ignore_case old new 0 text.

Fixpoint lstrip (s : string) : string :=
  match s with
  | EmptyString => EmptyString
  | String c s' => if isspace c then lstrip s' else s
  end.

Fixpoint rstrip (s : string) : string :=
  match s with
  | EmptyString => EmptyString
  | String c s' =>
      match rstrip s' with
      | EmptyString => if isspace c then EmptyString else String c EmptyString
      | r => String c r
      end
  end.

Definition strip (s : string) : string := rstrip (lstrip s).

Definition starts_token (s : string) : bool :=
  match s with
  | EmptyString => false
  | String c _ => negb (isspace c)
  end.

(** [s.split()]: the maximal runs of non-blank characters, in order. *)
Fixpoint split (s : string) : list string :=
  match s with
  | EmptyString => []
  | String c s' =>
      if isspace c then split s'
      else match starts_token s', split s' with
           | true, tok :: toks => String c tok :: toks
           | _, toks => String c EmptyString :: toks
           end
  end.

(** [sep.join(parts)]. *)
Definition join (sep : string) (parts : list string) : string :=
  String.concat sep parts.

End Text.

(* ------------------------------------------------------------------ *)
(** ** The fragment of Python's [re] the three patterns use

    A pattern is a sequence of quantified character classes, group
    brackets and the end anchor.  [exec] is the backtracking matcher:
    quantifiers try their alternatives in Python's priority order
    (greedy: longest first; lazy: shortest first) and the first
    alternative under which the rest of the pattern matches wins. *)

Module Re.

Inductive cls :=
| Digit                    (* \d *)
| Word                     (* \w *)
| Space                    (* \s *)
| AnyChar                  (* .  *)
| Lit (c : ascii)          (* one literal character *)
| Either (a b : cls).      (* [ab], a two-member set *)

Definition is_digit (c : ascii) : bool := Text.between 48 57 c.

(** [\w] on code points 0..255: letters, digits and other alphanumerics
    of Latin-1, and the underscore. *)
Definition is_word (c : ascii) : bool :=
  is_digit c || Text.between 65 90 c || Text.between 97 122 c
  || (Text.code c =? 95)
  || (Text.code c =? 170) || (Text.code c =? 178) || (Text.code c =? 179)
  || (Text.code c =? 181) || (Text.code c =? 185) || (Text.code c =? 186)
  || Text.between 188 190 c
  || Text.between 192 214 c || Text.between 216 246 c || Text.between 248 255 c.

Fixpoint accepts (k : cls) (c : ascii) : bool :=
  match k with
  | Digit => is_digit c
  | Word => is_word c
  | Space => Text.isspace c
  | AnyChar => negb (Text.code c =? 10)
  | Lit l => Ascii.eqb l c
  | Either a b => accepts a c || accepts b c
  end.

Inductive item :=
| Rep (k : cls) (lo : nat) (hi : option nat) (greedy : bool)
| GOpen                    (* (  *)
| GClose                   (* )  *)
| Eos.                     (* $  *)

(** A successful run yields the text consumed up to the next closing
    bracket, and the groups closed from here on. *)
Definition result := (string * list string)%type.

Definition consume (c : ascii) (r : option result) : option result :=
  match r with
  | Some (t, gs) => Some (String c t, gs)
  | None => None
  end.

Definition or_else (a b : option result) : option result :=
  match a with
  | Some r => Some r
  | None => b
  end.

Definition may_repeat (hi : option nat) : bool :=
  match hi with
  | Some 0 => false
  | _ => true
  end.

Definition less (hi : option nat) : option nat :=
  match hi with
  | Some n => Some (pred n)
  | None => None
  end.

(** [k{lo,hi}] followed by the continuation [rest]. *)
Fixpoint rep (k : cls) (lo : nat) (hi : option nat) (greedy : bool)
         (rest : string -> option result) (s : string) {struct s}
  : option result :=
  match lo with
  | S lo' =>
      match s with
      | String c s' =>
          if accepts k c then consume c (rep k lo' (less hi) greedy rest s')
          else None
      | EmptyString => None
      end
  | O =>
      let more :=
        match s with
        | String c s' =>
            if accepts k c && may_repeat hi
            then consume c (rep k 0 (less hi) greedy rest s')
            else None
        | EmptyString => None
        end in
      if greedy then or_else more (rest s) else or_else (rest s) more
  end.

(** [$] without MULTILINE: at the end, or before a final newline. *)
Definition at_end (s : string) : bool :=
  match s with
  | EmptyString => true
  | String c EmptyString => Text.code c =? 10
  | _ => false
  end.

Fixpoint exec (p : list item) : string -> option result :=
  match p with
  | [] => fun _ => Some (EmptyString, [])
  | Rep k lo hi greedy :: p' => rep k lo hi greedy (exec p')
  | GOpen :: p' =>
      fun s => match exec p' s with
               | Some (t, gs) => Some (EmptyString, t :: gs)
               | None => None
               end
  | GClose :: p' =>
      fun s => match exec p' s with
               | Some (_, gs) => Some (EmptyString, gs)
               | None => None
               end
  | Eos :: p' => fun s => if at_end s then exec p' s else None
  end.

(** [re.match(pattern, line)], giving [match.groups()]. *)
Definition re_match (p : list item) (line : string) : option (list string) :=
  option_map snd (exec p line).

(** Abbreviations for the quantifiers. *)
Definition one (k : cls) : item := Rep k 1 (Some 1) true.
Definition exactly (n : nat) (k : cls) : item := Rep k n (Some n) true.
Definition upto (lo hi : nat) (k : cls) : item := Rep k lo (Some hi) true.
Definition plus (k : cls) : item := Rep k 1 None true.
Definition lazy_star (k : cls) : item := Rep k 0 None false.

(** [([\d,]+\.\d{2})] *)
Definition decimal_group : list item :=
  [GOpen; plus (Either Digit (Lit ",")); one (Lit "."); exactly 2 Digit; GClose].

End Re.

(* ------------------------------------------------------------------ *)
(** ** The pandas conversions [to_numeric] and [to_datetime]

    Both are used with [errors="coerce"]: text that does not parse becomes
    the null value (NaN, NaT) instead of raising. *)

Module Pandas.

(** A numeric cell.  A decimal literal denotes its exact value; the
    rounding and the range of binary64 are left out of the model. *)
Inductive float64 :=
| NaN
| Inf (negative : bool)
| Fin (q : Q).

Definition isna (x : float64) : bool :=
  match x with
  | NaN => true
  | _ => false
  end.

Definition is_finite (x : float64) : bool :=
  match x with
  | Fin _ => true
  | _ => false
  end.

(** The blanks the numeric parser skips: TAB..CR and space. *)
Definition blank (c : ascii) : bool :=
  Text.between 9 13 c || (Text.code c =? 32).

Fixpoint skip_blanks (s : string) : string :=
  match s with
  | String c s' => if blank c then skip_blanks s' else s
  | EmptyString => EmptyString
  end.

Definition digit_value (c : ascii) : Z := Z.of_nat (Text.code c - 48).

(** Reads a run of digits: the number read so far, how many digits were
    read, and the rest of the text. *)
Fixpoint digits (acc : Z) (count : nat) (s : string) : Z * nat * string :=
  match s with
  | String c s' =>
      if Re.is_digit c then digits (acc * 10 + digit_value c) (S count) s'
      else (acc, count, s)
  | EmptyString => (acc, count, s)
  end.

Definition sign (s : string) : bool * string :=
  match s with
  | String "-" s' => (true, s')
  | String "+" s' => (false, s')
  | _ => (false, s)
  end.

(** [m * 10^e] as an exact rational in lowest terms. *)
Definition scale (m e : Z) : Q :=
  Qred (if (0 <=? e)%Z then inject_Z (m * 10 ^ e) else Qmake m (Z.to_pos (10 ^ (- e)))).

(** An optional exponent part [e[+-]ddd]; an [e] without digits is not
    consumed. *)
Definition exponent (s : string) : Z * string :=
  match s with
  | String c s' =>
      if Ascii.eqb (Text.lower_char c) "e" then
        let '(negative, s1) := sign s' in
        let '(n, count, s2) := digits 0 0 s1 in
        match count with
        | O => (0%Z, s)
        | _ => ((if negative then - n else n)%Z, s2)
        end
      else (0%Z, s)
  | EmptyString => (0%Z, s)
  end.

(** The decimal grammar: blanks, sign, digits, fraction, exponent, blanks,
    with at least one digit in all and nothing left over. *)
Definition decimal (s : string) : option Q :=
  let '(negative, s1) := sign (skip_blanks s) in
  let '(ip, icount, s2) := digits 0 0 s1 in
  let '(m, fcount, s3) :=
    match s2 with
    | String "." s2' =>
        let '(m, fcount, s3) := digits ip 0 s2' in (m, fcount, s3)
    | _ => (ip, 0, s2)
    end in
  match icount + fcount with
  | O => None
  | _ =>
      let '(e, s4) := exponent s3 in
      match skip_blanks s4 with
      | EmptyString =>
          Some (scale (if negative then - m else m)%Z (e - Z.of_nat fcount)%Z)
      | _ => None
      end
  end.

Definition infinity (s : string) : option bool :=
  let t := Text.lower s in
  if existsb (String.eqb t) ["inf"; "+inf"; "infinity"; "+infinity"] then Some false
  else if existsb (String.eqb t) ["-inf"; "-infinity"] then Some true
  else None.

(** [pd.to_numeric(_, errors="coerce")] on one text cell.  Which texts
    give NaN is as in pandas; the value of a cell that is a number is the
    exact one, where pandas rounds to the column's type and lets a decimal
    beyond the range of binary64 become infinite. *)
Definition to_numeric (s : string) : float64 :=
  match decimal s with
  | Some q => Fin q
  | None =>
      match infinity s with
      | Some negative => Inf negative
      | None => NaN
      end
  end.

(** A parsed date; the formats used carry no year, and the parser
    fills in 1900. *)
Record timestamp := mkTimestamp { year : nat; month : nat; day : nat }.

Inductive directive :=
| Month_b                  (* %b *)
| Day_d                    (* %d *)
| Blanks.                  (* white space in the format: \s+ *)

Definition month_names : list string :=
  ["jan"; "feb"; "mar"; "apr"; "may"; "jun";
   "jul"; "aug"; "sep"; "oct"; "nov"; "dec"].

Fixpoint drop (n : nat) (s : string) : string :=
  match n, s with
  | S n', String _ s' => drop n' s'
  | _, _ => s
  end.

(** The ways each directive can match at the head of the text, most
    preferred first, each with the value read and the text left. *)
Fixpoint month_candidates (names : list string) (number : nat) (s : string)
  : list (nat * string) :=
  match names with
  | [] => []
  | name :: names' =>
      (if Text.starts_with true name s
       then [(number, drop (String.length name) s)] else [])
      ++ month_candidates names' (S number) s
  end.

Definition digit_in (lo hi : nat) (c : ascii) : bool :=
  Text.between (48 + lo) (48 + hi) c.

Definition digit_nat (c : ascii) : nat := Text.code c - 48.

(** [3[0-1]|[1-2]\d|0[1-9]|[1-9]| [1-9]] *)
Definition day_candidates (s : string) : list (nat * string) :=
  match s with
  | String a s1 =>
      let two (ok : bool) (value : nat) :=
        match s1 with
        | String b s2 => if ok && Re.is_digit b then [(value + digit_nat b, s2)] else []
        | EmptyString => []
        end in
      let second (lo hi : nat) :=
        match s1 with
        | String b _ => digit_in lo hi b
        | EmptyString => false
        end in
      two (Ascii.eqb a "3" && second 0 1) 30
      ++ two (digit_in 1 2 a) (10 * digit_nat a)
      ++ two (Ascii.eqb a "0" && second 1 9) 0
      ++ (if digit_in 1 9 a then [(digit_nat a, s1)] else [])
      ++ two (Ascii.eqb a " " && second 1 9) 0
  | EmptyString => []
  end.

Fixpoint blanks_candidates (s : string) : list string :=
  match s with
  | String c s' => if Text.isspace c then blanks_candidates s' ++ [s'] else []
  | EmptyString => []
  end.

(** All matches of the format at the head of the text, in the order a
    backtracking matcher finds them: (month, day) read and text left. *)
Fixpoint matches (fmt : list directive) (m d : nat) (s : string)
  : list (nat * nat * string) :=
  match fmt with
  | [] => [(m, d, s)]
  | Month_b :: fmt' =>
      flat_map (fun '(m', s') => matches fmt' m' d s') (month_candidates month_names 1 s)
  | Day_d :: fmt' =>
      flat_map (fun '(d', s') => matches fmt' m d' s') (day_candidates s)
  | Blanks :: fmt' =>
      flat_map (fun s' => matches fmt' m d s') (blanks_candidates s)
  end.

(** Days of each month of 1900, which is not a leap year. *)
Definition days_in_month (m : nat) : nat :=
  nth (m - 1) [31; 28; 31; 30; 31; 30; 31; 31; 30; 31; 30; 31] 0.

(** [pd.to_datetime(_, format=fmt, errors="coerce")] on one text cell:
    the first match of the format must use up the text and name a day
    that exists; [None] is NaT.  The words "now" and "today", which pandas
    reads as the current time whatever the format, are outside this
    model. *)
Definition to_datetime (fmt : list directive) (s : string) : option timestamp :=
  match matches fmt 1 1 s with
  | (m, d, EmptyString) :: _ =>
      if (1 <=? d) && (d <=? days_in_month m) then Some (mkTimestamp 1900 m d) else None
  | _ => None
  end.

Definition fmt_d_b : list directive := [Day_d; Blanks; Month_b].   (* "%d %b" *)
Definition fmt_b_d : list directive := [Month_b; Blanks; Day_d].   (* "%b %d" *)

End Pandas.

(* ------------------------------------------------------------------ *)
(** ** The application *)

(** The category table, in the order the dictionary is written. *)
Definition categories : list (string * list string) :=
  [ ("Groceries", ["woolworths"; "iga"; "supermarket"; "freshco";
                   "dhesi meat shop"; "7eleven"; "dollarama"]);
    ("Dining/Takeout", ["restaurant"; "cafe"; "tim hortons"; "popeyes";
                        "banter ice cream"]);
    ("Utilities", ["virgin plus"; "adobe inc"; "internet"; "electricity"; "water"]);
    ("Subscriptions", ["canva"; "nayax"; "netflix"; "spotify"]);
    ("Transportation", ["uber"; "lyft"; "gas station"; "public transit"]);
    ("Entertainment", ["movie"; "concert"; "theme park"; "music"]);
    ("Shopping", ["petstock"; "clothing"; "electronics"; "amazon"]);
    ("Health", ["pharmacy"; "hospital"; "gym"]);
    ("Other", []) ].

(** The three values [detect_statement_format] returns. *)
Inductive StatementFormat :=
| commonwealth_bank
| credit_card
| debit_card.

Definition detect_statement_format (lines : list string) : StatementFormat :=
  if existsb (Text.contains "Commonwealth Bank of Australia") lines then commonwealth_bank
  else if existsb (Text.contains "TRANS. POST") lines then credit_card
  else if existsb (Text.contains "OpeningBalance") lines then debit_card
  else credit_card.

(** A raw transaction: (date text, description, amount text). *)
Definition RawTransaction := (string * string * string)%type.

Definition raw_date (t : RawTransaction) : string := fst (fst t).
Definition raw_description (t : RawTransaction) : string := snd (fst t).
Definition raw_amount (t : RawTransaction) : string := snd t.

(** [match.groups()[i]] *)
Definition group (i : nat) (groups : list string) : string := nth i groups "".

(** The loop the three parsers share: [start] is the parser's pattern
    match together with the unpacking of its groups. *)
Section LineLoop.

Variable start : string -> option RawTransaction.

(** The loop state: [transactions] and [current_transaction]. *)
Definition loop_state := (list RawTransaction * option RawTransaction)%type.

Definition flush (st : loop_state) : list RawTransaction :=
  match snd st with
  | Some current => fst st ++ [current]
  | None => fst st
  end.

Definition loop_step (st : loop_state) (line : string) : loop_state :=
  match start line with
  | Some fresh => (flush st, Some fresh)
  | None =>
      match snd st with
      | Some (date, description, amount) =>
          (fst st, Some (date, (description ++ " " ++ Text.strip line)%string, amount))
      | None => st
      end
  end.

Definition parse_lines (lines : list string) : list RawTransaction :=
  flush (fold_left loop_step lines ([], None)).

End LineLoop.

(** [(\d{1,2} \w{3})\s+(.*?)\s+([\d,]+\.\d{2})\s+([\d,]+\.\d{2})$] *)
Definition commonwealth_bank_pattern : list Re.item :=
  [Re.GOpen; Re.upto 1 2 Re.Digit; Re.one (Re.Lit " "); Re.exactly 3 Re.Word; Re.GClose;
   Re.plus Re.Space; Re.GOpen; Re.lazy_star Re.AnyChar; Re.GClose; Re.plus Re.Space]
  ++ Re.decimal_group ++ [Re.plus Re.Space] ++ Re.decimal_group ++ [Re.Eos].

(** [(\d{3})\s+(\w{3} \d{1,2})\s+(\w{3} \d{1,2})\s+(.*?)\s+([\d,]+\.\d{2})$] *)
Definition credit_card_pattern : list Re.item :=
  [Re.GOpen; Re.exactly 3 Re.Digit; Re.GClose; Re.plus Re.Space;
   Re.GOpen; Re.exactly 3 Re.Word; Re.one (Re.Lit " "); Re.upto 1 2 Re.Digit; Re.GClose;
   Re.plus Re.Space;
   Re.GOpen; Re.exactly 3 Re.Word; Re.one (Re.Lit " "); Re.upto 1 2 Re.Digit; Re.GClose;
   Re.plus Re.Space; Re.GOpen; Re.lazy_star Re.AnyChar; Re.GClose; Re.plus Re.Space]
  ++ Re.decimal_group ++ [Re.Eos].

(** [(\w{3}\d{1,2})\s+(.*?)\s+([\d,]+\.\d{2})\s+([\d,]+\.\d{2})$] *)
Definition debit_card_pattern : list Re.item :=
  [Re.GOpen; Re.exactly 3 Re.Word; Re.upto 1 2 Re.Digit; Re.GClose;
   Re.plus Re.Space; Re.GOpen; Re.lazy_star Re.AnyChar; Re.GClose; Re.plus Re.Space]
  ++ Re.decimal_group ++ [Re.plus Re.Space] ++ Re.decimal_group ++ [Re.Eos].

(** [debit if debit else f"-{credit}"]: a text is true when not empty. *)
Definition commonwealth_bank_amount (debit credit : string) : string :=
  match debit with
  | EmptyString => ("-" ++ credit)%string
  | _ => debit
  end.

Definition commonwealth_bank_start (line : string) : option RawTransaction :=
  match Re.re_match commonwealth_bank_pattern line with
  | Some groups =>
      let date := group 0 groups in
      let description := group 1 groups in
      let debit := group 2 groups in
      let credit := group 3 groups in
      Some (date, description, commonwealth_bank_amount debit credit)
  | None => None
  end.

Definition credit_card_start (line : string) : option RawTransaction :=
  match Re.re_match credit_card_pattern line with
  | Some groups =>
      let trans_date := group 1 groups in
      let details := group 3 groups in
      let amount := group 4 groups in
      Some (trans_date, details, amount)
  | None => None
  end.

Definition debit_card_start (line : string) : option RawTransaction :=
  match Re.re_match debit_card_pattern line with
  | Some groups =>
      let date := group 0 groups in
      let transaction_type := group 1 groups in
      let amount := group 2 groups in
      Some (date, transaction_type, amount)
  | None => None
  end.

Definition parse_commonwealth_bank_transactions : list string -> list RawTransaction :=
  parse_lines commonwealth_bank_start.

Definition parse_credit_card_transactions : list string -> list RawTransaction :=
  parse_lines credit_card_start.

Definition parse_debit_card_transactions : list string -> list RawTransaction :=
  parse_lines debit_card_start.

(** The pattern match of the parser [main] picks for a format. *)
Definition start_of (statement_format : StatementFormat) : string -> option RawTransaction :=
  match statement_format with
  | credit_card => credit_card_start
  | debit_card => debit_card_start
  | commonwealth_bank => commonwealth_bank_start
  end.

(** The parser [main] picks for a format. *)
Definition parse_transactions (statement_format : StatementFormat)
  : list string -> list RawTransaction :=
  match statement_format with
  | credit_card => parse_credit_card_transactions
  | debit_card => parse_debit_card_transactions
  | commonwealth_bank => parse_commonwealth_bank_transactions
  end.

(** *** The data frame

    A row of the frame with columns Date, Description, Amount and, once
    [categorize_expenses] has run, Category ([None]: no such column yet).
    The Date and Amount cells change type along [normalize_transactions]. *)
Record Row (D A : Type) := mkRow {
  Date : D;
  Description : string;
  Amount : A;
  Category : option string
}.

Arguments mkRow {D A}.
Arguments Date {D A}.
Arguments Description {D A}.
Arguments Amount {D A}.
Arguments Category {D A}.

Definition DataFrame (D A : Type) := list (Row D A).

(** [pd.DataFrame(transactions, columns=["Date", "Description", "Amount"])] *)
Definition make_frame (transactions : list RawTransaction) : DataFrame string string :=
  map (fun t => mkRow (raw_date t) (raw_description t) (raw_amount t) None) transactions.

(** [df[column] = f(df[column])], cell by cell. *)
Definition assign_Amount {D A B} (f : A -> B) (df : DataFrame D A) : DataFrame D B :=
  map (fun r => mkRow (Date r) (Description r) (f (Amount r)) (Category r)) df.

Definition assign_Date {D E A} (f : D -> E) (df : DataFrame D A) : DataFrame E A :=
  map (fun r => mkRow (f (Date r)) (Description r) (Amount r) (Category r)) df.

Definition assign_Description {D A} (f : string -> string) (df : DataFrame D A)
  : DataFrame D A :=
  map (fun r => mkRow (Date r) (f (Description r)) (Amount r) (Category r)) df.

(** [df.dropna(subset=["Amount"])] *)
Definition dropna_Amount {D} (df : DataFrame D Pandas.float64) : DataFrame D Pandas.float64 :=
  filter (fun r => negb (Pandas.isna (Amount r))) df.

(** [text.str.contains("a|b|...", case=False)]: some alternative occurs
    in the text, letter case ignored. *)
Definition str_contains (alternatives : list string) (text : string) : bool :=
  existsb (fun alternative => Text.find true alternative text) alternatives.

(** [df[~df["Description"].str.contains(pattern, case=False)]] *)
Definition drop_matching {D A} (alternatives : list string) (df : DataFrame D A)
  : DataFrame D A :=
  filter (fun r => negb (str_contains alternatives (Description r))) df.

Definition debit_card_exclusions : list string :=
  ["OpeningBalance"; "ClosingBalance"; "Deposit"; "CreditCard/LOCpayment"].

Definition credit_card_exclusions : list string := ["PAYMENT FROM"].

Definition commonwealth_bank_exclusions : list string :=
  ["OPENING BALANCE"; "DEBIT INTEREST"].

(** [.str.replace("Pointofsalepurchase", "", case=False).str.strip()] *)
Definition remove_point_of_sale (description : string) : string :=
  Text.strip (Text.replace true "Pointofsalepurchase" "" description).

(** [" ".join(x.split()[:3])] *)
Definition truncate_words (x : string) : string :=
  Text.join " " (firstn 3 (Text.split x)).

Definition normalize_transactions (transactions : list RawTransaction)
           (statement_format : StatementFormat)
  : DataFrame (option Pandas.timestamp) Pandas.float64 :=
  let df := make_frame transactions in
  let df := assign_Amount (Text.replace false "," "") df in
  let df := assign_Amount Pandas.to_numeric df in
  let df := dropna_Amount df in
  let df :=
    match statement_format with
    | commonwealth_bank => assign_Date (Pandas.to_datetime Pandas.fmt_d_b) df
    | _ => assign_Date (Pandas.to_datetime Pandas.fmt_b_d) df
    end in
  let df :=
    match statement_format with
    | debit_card =>
        let df := drop_matching debit_card_exclusions df in
        assign_Description remove_point_of_sale df
    | credit_card => drop_matching credit_card_exclusions df
    | commonwealth_bank => drop_matching commonwealth_bank_exclusions df
    end in
  assign_Description truncate_words df.

(** The inner loop of [get_category]: some keyword of the list occurs in
    the lowered description. *)
Fixpoint any_keyword (keywords : list string) (lowered : string) : bool :=
  match keywords with
  | [] => false
  | keyword :: keywords' =>
      if Text.contains keyword lowered then true else any_keyword keywords' lowered
  end.

(** The outer loop of [get_category] over a table. *)
Fixpoint first_category (table : list (string * list string)) (description : string)
  : string :=
  match table with
  | [] => "Other"
  | (category, keywords) :: table' =>
      if any_keyword keywords (Text.lower description) then category
      else first_category table' description
  end.

Definition get_category (description : string) : string :=
  first_category categories description.

(** [df["Category"] = df["Description"].apply(get_category)] *)
Definition categorize_expenses {D A} (df : DataFrame D A) : DataFrame D A :=
  map (fun r => mkRow (Date r) (Description r) (Amount r)
                      (Some (get_category (Description r)))) df.

(** The chain of [main] for a given format: parse, normalize, categorize. *)
Definition analyse (statement_format : StatementFormat) (lines : list string)
  : DataFrame (option Pandas.timestamp) Pandas.float64 :=
  categorize_expenses
    (normalize_transactions (parse_transactions statement_format lines) statement_format).

(** *** From the uploaded file to the table *)

(** The characters at which [str.splitlines] ends a line: LF, VT, FF, CR,
    FS, GS, RS and NEL. *)
Definition is_linebreak (c : ascii) : bool :=
  Text.between 10 13 c || Text.between 28 30 c || (Text.code c =? 133).

(** Puts a character in front of the first line of what follows it. *)
Definition push_char (c : ascii) (following : list string) : list string :=
  match following with
  | [] => [String c EmptyString]
  | line :: rest => String c line :: rest
  end.

(** [text.splitlines()]: the lines without their terminators; CR LF is
    one terminator, and text after the last terminator is a line only when
    there is some.  [after_cr] tells that the character before was a CR. *)
Fixpoint splitlines_from (after_cr : bool) (text : string) : list string :=
  match text with
  | EmptyString => []
  | String c text' =>
      if after_cr && (Text.code c =? 10) then splitlines_from false text'
      else if is_linebreak c then EmptyString :: splitlines_from (Text.code c =? 13) text'
      else push_char c (splitlines_from false text')
  end.

Definition splitlines (text : string) : list string := splitlines_from false text.

(** [extract_lines_from_pdf], given what [page.extract_text()] returns for
    the pages of the file in order ([None] for a page without text): the
    lines of the pages whose text is true, that is neither [None] nor
    empty. *)
Definition extract_lines_from_pdf (page_texts : list (option string)) : list string :=
  flat_map (fun page_text =>
              match page_text with
              | Some (String c text) => splitlines (String c text)
              | _ => []
              end) page_texts.

(** [list(categories.keys())], the options of the category select box. *)
Definition category_options : list string := map fst categories.

(** [options.index(x)]: the position of the first [x]; [None] where Python
    raises ValueError. *)
Fixpoint list_index (x : string) (options : list string) : option nat :=
  match options with
  | [] => None
  | option :: options' =>
      if String.eqb option x then Some 0
      else match list_index x options' with
           | Some i => Some (S i)
           | None => None
           end
  end.

(* ------------------------------------------------------------------ *)
(** ** What the specification says, in its own terms *)

(** [pat] is a substring of [text]. *)
Definition occurs (pat text : string) : Prop :=
  exists pre post, text = (pre ++ pat ++ post)%string.

(** [pat] is a substring of [text] up to letter case. *)
Definition occurs_ignoring_case (pat text : string) : Prop :=
  exists pre mid post,
    text = (pre ++ mid ++ post)%string /\ Text.lower mid = Text.lower pat.

(** Some line of the document contains the marker. *)
Definition some_line_has (marker : string) (lines : list string) : Prop :=
  exists line, In line lines /\ occurs marker line.

(** The text contains one of the words, letter case ignored. *)
Definition mentions_any (words : list string) (text : string) : Prop :=
  exists word, In word words /\ occurs_ignoring_case word text.

Section Continuation.

Variable start : string -> option RawTransaction.

(** The lines that start a transaction, in order, with what each starts. *)
Fixpoint started (lines : list string) : list RawTransaction :=
  match lines with
  | [] => []
  | line :: rest =>
      match start line with
      | Some t => t :: started rest
      | None => started rest
      end
  end.

(** Trimmed texts, each after a single space. *)
Definition appended (texts : list string) : string :=
  fold_right (fun line tail => (" " ++ Text.strip line ++ tail)%string) "" texts.

(** The lines up to the next line that starts a transaction. *)
Fixpoint continuation_lines (lines : list string) : list string :=
  match lines with
  | [] => []
  | line :: rest =>
      match start line with
      | Some _ => []
      | None => line :: continuation_lines rest
      end
  end.

(** One transaction per starting line, in line order, each with the
    continuation lines that follow it appended to its description. *)
Fixpoint transactions_from (lines : list string) : list RawTransaction :=
  match lines with
  | [] => []
  | line :: rest =>
      match start line with
      | Some (date, description, amount) =>
          (date, (description ++ appended (continuation_lines rest))%string, amount)
          :: transactions_from rest
      | None => transactions_from rest
      end
  end.

End Continuation.

(** The date layout [normalize_transactions] uses for a format. *)
Definition date_layout (statement_format : StatementFormat) : list Pandas.directive :=
  match statement_format with
  | commonwealth_bank => Pandas.fmt_d_b
  | _ => Pandas.fmt_b_d
  end.

(** The markers whose rows a format leaves out. *)
Definition exclusions (statement_format : StatementFormat) : list string :=
  match statement_format with
  | debit_card => debit_card_exclusions
  | credit_card => credit_card_exclusions
  | commonwealth_bank => commonwealth_bank_exclusions
  end.

(** The amount text without thousands separators, read as a number. *)
Definition amount_value (t : RawTransaction) : Pandas.float64 :=
  Pandas.to_numeric (Text.replace false "," "" (raw_amount t)).

(** The first three blank-separated tokens of a text. *)
Definition first_tokens (text : string) : list string := firstn 3 (Text.split text).

(** The description a surviving row ends with. *)
Definition final_description (statement_format : StatementFormat) (description : string)
  : string :=
  match statement_format with
  | debit_card =>
      Text.join " " (first_tokens (Text.replace true "Pointofsalepurchase" "" description))
  | _ => Text.join " " (first_tokens description)
  end.

(** The normalized row of a raw transaction that survives. *)
Definition normal_row (statement_format : StatementFormat) (t : RawTransaction)
  : Row (option Pandas.timestamp) Pandas.float64 :=
  mkRow (Pandas.to_datetime (date_layout statement_format) (raw_date t))
        (final_description statement_format (raw_description t))
        (amount_value t)
        None.

(** A raw transaction survives when its amount is a number and its
    description has none of the format's markers. *)
Definition survives (statement_format : StatementFormat) (t : RawTransaction) : bool :=
  negb (Pandas.isna (amount_value t))
  && negb (str_contains (exclusions statement_format) (raw_description t)).

(** A token: not empty and without blank characters. *)
Fixpoint no_blank (s : string) : bool :=
  match s with
  | EmptyString => true
  | String c s' => negb (Text.isspace c) && no_blank s'
  end.

Definition token (t : string) : Prop := t <> "" /\ no_blank t = true.

(** Every character of the text is in the class. *)
Fixpoint all_accepted (k : Re.cls) (s : string) : bool :=
  match s with
  | EmptyString => true
  | String c s' => Re.accepts k c && all_accepted k s'
  end.

(** A text without line terminators. *)
Fixpoint no_linebreak (s : string) : bool :=
  match s with
  | EmptyString => true
  | String c s' => negb (is_linebreak c) && no_linebreak s'
  end.

(** The text with its line terminators taken out. *)
Fixpoint without_linebreaks (s : string) : string :=
  match s with
  | EmptyString => EmptyString
  | String c s' =>
      if is_linebreak c then without_linebreaks s' else String c (without_linebreaks s')
  end.

(** A decimal text as the patterns capture it: digits and commas, at
    least one, then a point and two digits. *)
Definition decimal_text (a : string) : Prop :=
  exists whole cents,
    a = (whole ++ "." ++ cents)%string /\ whole <> "" /\
    all_accepted (Re.Either Re.Digit (Re.Lit ",")) whole = true /\
    all_accepted Re.Digit cents = true /\ String.length cents = 2.

(** Three word characters. *)
Definition month_text (m : string) : Prop :=
  String.length m = 3 /\ all_accepted Re.Word m = true.

(** One or two digits. *)
Definition day_text (d : string) : Prop :=
  1 <= String.length d <= 2 /\ all_accepted Re.Digit d = true.

(** The date text each pattern captures: "Jan 5" for a credit card,
    "Jan5" for a debit card, "5 Jan" for CommonwealthBank, where the month
    is any three word characters. *)
Definition date_text (statement_format : StatementFormat) (date : string) : Prop :=
  exists m d,
    month_text m /\ day_text d /\
    date = match statement_format with
           | credit_card => (m ++ " " ++ d)%string
           | debit_card => (m ++ d)%string
           | commonwealth_bank => (d ++ " " ++ m)%string
           end.

(** One list is the other with some elements left out, order kept. *)
Inductive subsequence {X : Type} : list X -> list X -> Prop :=
| sub_nil : subsequence [] []
| sub_skip : forall x l1 l2, subsequence l1 l2 -> subsequence l1 (x :: l2)
| sub_keep : forall x l1 l2, subsequence l1 l2 -> subsequence (x :: l1) (x :: l2).

(* ------------------------------------------------------------------ *)
(** ** Facts about the text primitives *)

Lemma append_empty_r (s : string) : (s ++ "")%string = s.
Proof. induction s; simpl; congruence. Qed.

Lemma append_assoc (a b c : string) : ((a ++ b) ++ c)%string = (a ++ b ++ c)%string.
Proof. induction a; simpl; congruence. Qed.

Lemma lower_append (a b : string) :
  Text.lower (a ++ b) = (Text.lower a ++ Text.lower b)%string.
Proof. induction a; simpl; congruence. Qed.

Lemma lower_length (a : string) : String.length (Text.lower a) = String.length a.
Proof. induction a; simpl; congruence. Qed.

Lemma starts_with_exact (pat text : string) :
  Text.starts_with false pat text = true <-> exists post, text = (pat ++ post)%string.
Proof.
  revert text. induction pat as [|p pat IH]; intros text; simpl.
  - split; [intros _; now exists text | reflexivity].
  - destruct text as [|c text].
    + split; [discriminate | intros [post H]; discriminate].
    + unfold Text.same_char. rewrite andb_true_iff, Ascii.eqb_eq, IH. split.
      * intros [-> [post ->]]. now exists post.
      * intros [post H]. injection H as -> ->. split; [reflexivity | now exists post].
Qed.

Lemma starts_with_ignoring_case (pat text : string) :
  Text.starts_with true pat text = true <->
  exists mid post, text = (mid ++ post)%string /\ Text.lower mid = Text.lower pat.
Proof.
  revert text. induction pat as [|p pat IH]; intros text; simpl.
  - split; [intros _; now exists "", text | reflexivity].
  - destruct text as [|c text].
    + split; [discriminate |].
      intros (mid & post & H & L). destruct mid; simpl in *; discriminate.
    + unfold Text.same_char. rewrite andb_true_iff, Ascii.eqb_eq, IH. split.
      * intros [E (mid & post & -> & L)]. exists (String c mid), post.
        simpl. split; [reflexivity | congruence].
      * intros (mid & post & H & L). destruct mid as [|m mid]; simpl in L; [discriminate|].
        simpl in H. injection H as -> ->. injection L as L1 L2.
        split; [congruence | now exists mid, post].
Qed.

Lemma contains_occurs (pat text : string) :
  Text.contains pat text = true <-> occurs pat text.
Proof.
  unfold Text.contains, occurs. induction text as [|c text IH].
  - simpl. rewrite orb_false_r, starts_with_exact. split.
    + intros [post H]. now exists "", post.
    + intros (pre & post & H). destruct pre; simpl in H; [now exists post | discriminate].
  - cbn [Text.find]. rewrite orb_true_iff, starts_with_exact, IH. split.
    + intros [[post H] | (pre & post & H)].
      * now exists "", post.
      * exists (String c pre), post. simpl. congruence.
    + intros (pre & post & H). destruct pre as [|a pre]; simpl in H.
      * left. now exists post.
      * right. injection H as _ H. now exists pre, post.
Qed.

Lemma find_occurs_ignoring_case (pat text : string) :
  Text.find true pat text = true <-> occurs_ignoring_case pat text.
Proof.
  unfold occurs_ignoring_case. induction text as [|c text IH].
  - simpl. rewrite orb_false_r, starts_with_ignoring_case. split.
    + intros (mid & post & H & L). now exists "", mid, post.
    + intros (pre & mid & post & H & L).
      destruct pre; simpl in H; [now exists mid, post | discriminate].
  - cbn [Text.find]. rewrite orb_true_iff, starts_with_ignoring_case, IH. split.
    + intros [(mid & post & H & L) | (pre & mid & post & H & L)].
      * now exists "", mid, post.
      * exists (String c pre), mid, post. simpl. split; congruence.
    + intros (pre & mid & post & H & L). destruct pre as [|a pre]; simpl in H.
      * left. now exists mid, post.
      * right. injection H as _ H. now exists pre, mid, post.
Qed.

Lemma str_contains_mentions_any (words : list string) (text : string) :
  str_contains words text = true <-> mentions_any words text.
Proof.
  unfold str_contains, mentions_any. rewrite existsb_exists.
  split; intros (m & I & H); exists m; (split; [exact I|]);
    now apply find_occurs_ignoring_case.
Qed.

Lemma starts_token_rstrip (s : string) :
  Text.rstrip s <> "" -> Text.starts_token (Text.rstrip s) = Text.starts_token s.
Proof.
  destruct s as [|c s]; simpl; [reflexivity|].
  destruct (Text.rstrip s); [destruct (Text.isspace c) eqn:E|]; simpl;
    rewrite ?E; intros _; reflexivity.
Qed.

Lemma split_lstrip (s : string) : Text.split (Text.lstrip s) = Text.split s.
Proof.
  induction s as [|c s IH]; [reflexivity|].
  cbn [Text.lstrip]. destruct (Text.isspace c) eqn:E.
  - rewrite IH. simpl. now rewrite E.
  - reflexivity.
Qed.

Lemma split_rstrip (s : string) : Text.split (Text.rstrip s) = Text.split s.
Proof.
  induction s as [|c s IH]; [reflexivity|].
  cbn [Text.rstrip]. destruct (Text.rstrip s) as [|r0 r] eqn:R.
  - simpl in IH. destruct (Text.isspace c) eqn:E; simpl; rewrite E, <- IH.
    + reflexivity.
    + now destruct (Text.starts_token s).
  - assert (T : Text.starts_token (String r0 r) = Text.starts_token s).
    { rewrite <- R. apply starts_token_rstrip. rewrite R. discriminate. }
    cbn [Text.split]. destruct (Text.isspace c); [exact IH|].
    cbn [Text.split] in IH. now rewrite T, IH.
Qed.

Lemma split_strip (s : string) : Text.split (Text.strip s) = Text.split s.
Proof. unfold Text.strip. now rewrite split_rstrip, split_lstrip. Qed.

Lemma split_tokens (s : string) : Forall token (Text.split s).
Proof.
  induction s as [|c s IH]; [constructor|].
  cbn [Text.split]. destruct (Text.isspace c) eqn:E; [exact IH|].
  assert (one : token (String c "")).
  { split; [discriminate|]. cbn. now rewrite E. }
  destruct (Text.starts_token s); [|now constructor].
  destruct (Text.split s) as [|tok toks]; [now constructor|].
  inversion_clear IH as [|? ? [_ T] R]. constructor; [|exact R].
  split; [discriminate|]. cbn. now rewrite E, T.
Qed.

Lemma split_token_first (t rest : string) :
  token t -> Text.starts_token rest = false ->
  Text.split (t ++ rest) = t :: Text.split rest.
Proof.
  intros [N B] R. induction t as [|c t IH]; [congruence|].
  cbn [no_blank] in B. apply andb_true_iff in B. destruct B as [C B].
  apply negb_true_iff in C. cbn [String.append Text.split]. rewrite C.
  destruct t as [|c' t'].
  - cbn [String.append]. rewrite R. now destruct (Text.split rest).
  - rewrite IH by (discriminate || exact B).
    cbn [no_blank] in B. apply andb_true_iff in B. destruct B as [C' _].
    cbn [String.append Text.starts_token]. now rewrite C'.
Qed.

Lemma split_join (toks : list string) :
  Forall token toks -> Text.split (Text.join " " toks) = toks.
Proof.
  unfold Text.join. induction 1 as [|t ts T _ IH]; [reflexivity|].
  cbn [String.concat]. destruct ts as [|t' ts'].
  - rewrite <- (append_empty_r t) at 1. now rewrite split_token_first.
  - rewrite split_token_first by (exact T || reflexivity).
    f_equal. exact IH.
Qed.

Lemma Forall_firstn_tokens (n : nat) (toks : list string) :
  Forall token toks -> Forall token (firstn n toks).
Proof.
  intros H. revert n. induction H as [|t ts T _ IH]; intros [|n]; cbn; auto.
Qed.

(** The truncated description has the first three tokens of the text as
    its tokens. *)
Lemma split_truncated (text : string) :
  Text.split (Text.join " " (first_tokens text)) = first_tokens text.
Proof. apply split_join, Forall_firstn_tokens, split_tokens. Qed.

Lemma replace_nothing (pat text : string) :
  Text.find true pat text = false -> Text.replace true pat "" text = text.
Proof.
  unfold Text.replace. induction text as [|c text IH]; [reflexivity|].
  cbn [Text.find Text.replace_from]. intros H.
  apply orb_false_iff in H. destruct H as [S F].
  rewrite S. now rewrite IH.
Qed.

(* ------------------------------------------------------------------ *)
(** ** What a successful match consumed *)

(** A quantified class that matched consumed at least [lo] characters of
    the class, and the rest of the pattern matched what follows. *)
Lemma rep_consumed (k : Re.cls) (greedy : bool) (rest : string -> option Re.result)
      (s : string) :
  forall lo hi t gs,
    Re.rep k lo hi greedy rest s = Some (t, gs) ->
    exists w s' t',
      s = (w ++ s')%string /\ lo <= String.length w /\ all_accepted k w = true /\
      rest s' = Some (t', gs) /\ t = (w ++ t')%string.
Proof.
  induction s as [|c s IH]; intros lo hi t gs H.
  - destruct lo; [|discriminate]. cbn in H.
    assert (R : rest "" = Some (t, gs)).
    { destruct greedy; cbn [Re.or_else] in H; [exact H|].
      destruct (rest ""); [exact H | discriminate]. }
    exists "", "", t. repeat split; auto.
  - assert (step : forall lo' hi',
               Re.consume c (Re.rep k lo' hi' greedy rest s) = Some (t, gs) ->
               Re.accepts k c = true ->
               exists w s' t',
                 String c s = (w ++ s')%string /\ S lo' <= String.length w /\
                 all_accepted k w = true /\ rest s' = Some (t', gs) /\
                 t = (w ++ t')%string).
    { intros lo' hi' C A.
      destruct (Re.rep k lo' hi' greedy rest s) as [[t1 gs1]|] eqn:R; [|discriminate].
      cbn in C. injection C as <- <-.
      destruct (IH _ _ _ _ R) as (w & s' & t' & -> & L & W & K & ->).
      exists (String c w), s', t'. cbn. rewrite A, W. repeat split; auto. lia. }
    destruct lo as [|lo'].
    + cbn [Re.rep] in H.
      destruct (Re.accepts k c && Re.may_repeat hi) eqn:G.
      * apply andb_true_iff in G. destruct G as [A _].
        destruct (Re.consume c (Re.rep k 0 (Re.less hi) greedy rest s))
          as [r|] eqn:C.
        -- destruct greedy; cbn [Re.or_else] in H.
           ++ injection H as ->.
              destruct (step _ _ C A) as (w & s' & t' & E & L & W & K & T).
              exists w, s', t'. repeat split; auto. lia.
           ++ destruct (rest (String c s)) as [r'|] eqn:R'; cbn [Re.or_else] in H;
                injection H as ->.
              ** exists "", (String c s), t. repeat split; auto.
              ** destruct (step _ _ C A) as (w & s' & t' & E & L & W & K & T).
                 exists w, s', t'. repeat split; auto. lia.
        -- assert (R : rest (String c s) = Some (t, gs)).
           { destruct greedy; cbn [Re.or_else] in H; [exact H|].
             destruct (rest (String c s)); [exact H | discriminate]. }
           exists "", (String c s), t. repeat split; auto.
      * assert (R : rest (String c s) = Some (t, gs)).
        { destruct greedy; cbn [Re.or_else] in H; [exact H|].
          destruct (rest (String c s)); [exact H | discriminate]. }
        exists "", (String c s), t. repeat split; auto.
    + cbn [Re.rep] in H. destruct (Re.accepts k c) eqn:A; [|discriminate].
      exact (step _ _ H eq_refl).
Qed.

Lemma item_consumed (k : Re.cls) (lo : nat) (hi : option nat) (greedy : bool)
      (p : list Re.item) (s t : string) (gs : list string) :
  Re.exec (Re.Rep k lo hi greedy :: p) s = Some (t, gs) ->
  exists w s' t',
    s = (w ++ s')%string /\ lo <= String.length w /\ all_accepted k w = true /\
    Re.exec p s' = Some (t', gs) /\ t = (w ++ t')%string.
Proof. apply rep_consumed. Qed.

Lemma open_consumed (p : list Re.item) (s t : string) (gs : list string) :
  Re.exec (Re.GOpen :: p) s = Some (t, gs) ->
  exists g gs', Re.exec p s = Some (g, gs') /\ gs = g :: gs'.
Proof.
  cbn [Re.exec]. destruct (Re.exec p s) as [[g gs']|]; [|discriminate].
  intros H. injection H as _ <-. now exists g, gs'.
Qed.

Lemma close_consumed (p : list Re.item) (s t : string) (gs : list string) :
  Re.exec (Re.GClose :: p) s = Some (t, gs) ->
  t = "" /\ exists t', Re.exec p s = Some (t', gs).
Proof.
  cbn [Re.exec]. destruct (Re.exec p s) as [[t' gs']|]; [|discriminate].
  intros H. injection H as <- <-. split; [reflexivity | now exists t'].
Qed.


(** Peels the quantified class, or the bracket, at the head of the
    pattern of a successful run [H]. *)
Ltac peel_item H :=
  let w := fresh "w" in
  let s := fresh "s" in
  let t := fresh "t" in
  apply item_consumed in H;
  destruct H as (w & s & t & -> & _ & _ & H & ->).

Ltac peel_close H :=
  let t := fresh "t" in
  apply close_consumed in H;
  destruct H as (-> & t & H).



(* ------------------------------------------------------------------ *)
(** ** The line loop *)

Section LoopFacts.

Variable start : string -> option RawTransaction.

Lemma appended_app (xs ys : list string) :
  appended (xs ++ ys) = (appended xs ++ appended ys)%string.
Proof.
  induction xs as [|x xs IH]; [reflexivity|].
  simpl. rewrite IH. f_equal. symmetry. apply append_assoc.
Qed.

(** The loop from any state: what was emitted, then the transaction being
    accumulated with the continuation lines still to come, then one
    transaction per later starting line. *)
Lemma fold_loop (lines : list string) :
  forall (acc : list RawTransaction) (cur : option RawTransaction),
    flush (fold_left (loop_step start) lines (acc, cur)) =
    acc ++ match cur with
           | Some (date, description, amount) =>
               [(date,
                 (description ++ appended (continuation_lines start lines))%string,
                 amount)]
           | None => []
           end ++ transactions_from start lines.
Proof.
  induction lines as [|line rest IH]; intros acc cur.
  - unfold flush. simpl. destruct cur as [[[d desc] a]|]; simpl.
    + now rewrite append_empty_r.
    + now rewrite app_nil_r.
  - cbn [fold_left]. unfold loop_step at 2. cbn [continuation_lines transactions_from].
    destruct (start line) as [[[d' desc'] a']|] eqn:S.
    + rewrite IH. unfold flush. cbn [fst snd].
      destruct cur as [[[d desc] a]|]; cbn [appended fold_right].
      * rewrite append_empty_r, <- app_assoc. reflexivity.
      * reflexivity.
    + cbn [fst snd]. destruct cur as [[[d desc] a]|].
      * rewrite IH. cbn [appended fold_right]. now rewrite append_assoc.
      * now rewrite IH.
Qed.

Lemma parse_lines_spec (lines : list string) :
  parse_lines start lines = transactions_from start lines.
Proof. unfold parse_lines. now rewrite fold_loop. Qed.

Lemma transactions_from_skip (pre rest : list string) :
  Forall (fun line => start line = None) pre ->
  transactions_from start (pre ++ rest) = transactions_from start rest.
Proof.
  induction 1 as [|line pre H _ IH]; [reflexivity|].
  simpl. now rewrite H.
Qed.

Lemma continuation_lines_until (cs rest : list string) (m : string) :
  Forall (fun line => start line = None) cs ->
  start m <> None ->
  continuation_lines start (cs ++ m :: rest) = cs.
Proof.
  intros H M. induction H as [|line cs H _ IH]; simpl.
  - destruct (start m); congruence.
  - now rewrite H, IH.
Qed.

Lemma continuation_lines_all (cs : list string) :
  Forall (fun line => start line = None) cs ->
  continuation_lines start cs = cs.
Proof.
  induction 1 as [|line cs H _ IH]; simpl; [reflexivity|]. now rewrite H, IH.
Qed.

Lemma transactions_from_all_start (body : list string) :
  Forall (fun line => start line <> None) body ->
  transactions_from start body = started start body.
Proof.
  induction 1 as [|line body H HB IH]; [reflexivity|].
  simpl. destruct (start line) as [[[d desc] a]|] eqn:S; [|congruence].
  rewrite IH. f_equal. f_equal. f_equal.
  destruct body as [|next body']; simpl; [apply append_empty_r|].
  inversion_clear HB as [|? ? N _]. destruct (start next); [|congruence].
  apply append_empty_r.
Qed.

Lemma started_all_start (body : list string) :
  Forall (fun line => start line <> None) body ->
  List.length (started start body) = List.length body.
Proof.
  induction 1 as [|line body H _ IH]; [reflexivity|].
  simpl. destruct (start line); [simpl; congruence | congruence].
Qed.

Lemma transactions_from_started (lines : list string) :
  Forall2 (fun t m =>
             raw_date t = raw_date m /\ raw_amount t = raw_amount m /\
             exists tail, raw_description t = (raw_description m ++ tail)%string)
          (transactions_from start lines) (started start lines).
Proof.
  induction lines as [|line rest IH]; simpl; [constructor|].
  destruct (start line) as [[[d desc] a]|]; [|exact IH].
  constructor; [|exact IH].
  repeat split. now eexists.
Qed.

(** Every transaction comes from a starting line, which gives its date
    and its amount. *)
Lemma transactions_from_origin (lines : list string) (t : RawTransaction) :
  In t (transactions_from start lines) ->
  exists line m,
    In line lines /\ start line = Some m /\
    raw_date t = raw_date m /\ raw_amount t = raw_amount m.
Proof.
  induction lines as [|line rest IH]; cbn [transactions_from]; [intros []|].
  destruct (start line) as [[[d desc] a]|] eqn:S.
  - intros [<- | I].
    + exists line, (d, desc, a). repeat split; [now left | exact S].
    + destruct (IH I) as (l & m & L & E). exists l, m. split; [now right | exact E].
  - intros I. destruct (IH I) as (l & m & L & E). exists l, m.
    split; [now right | exact E].
Qed.

End LoopFacts.

(* ------------------------------------------------------------------ *)
(** ** Format detection *)

Lemma any_line_contains (marker : string) (lines : list string) :
  existsb (Text.contains marker) lines = true <-> some_line_has marker lines.
Proof.
  unfold some_line_has. rewrite existsb_exists.
  split; intros (line & I & H); exists line; (split; [exact I|]);
    now apply contains_occurs.
Qed.

Lemma no_line_contains (marker : string) (lines : list string) :
  existsb (Text.contains marker) lines = false <-> ~ some_line_has marker lines.
Proof.
  rewrite <- any_line_contains. now destruct (existsb _ lines).
Qed.

(** C4: [detect_statement_format] is total and answers by priority:
    CommonwealthBank exactly when some line contains "Commonwealth Bank of
    Australia", whatever else is present; otherwise DebitCard exactly when
    no line contains "TRANS. POST" and some line contains "OpeningBalance";
    CreditCard in every other case, which includes the document without
    any marker. *)
Theorem detect_statement_format_priority (lines : list string) :
  let cba := some_line_has "Commonwealth Bank of Australia" lines in
  let post := some_line_has "TRANS. POST" lines in
  let opening := some_line_has "OpeningBalance" lines in
  (detect_statement_format lines = commonwealth_bank <-> cba) /\
  (detect_statement_format lines = credit_card <-> ~ cba /\ (post \/ ~ opening)) /\
  (detect_statement_format lines = debit_card <-> ~ cba /\ ~ post /\ opening).
Proof.
  cbv zeta. unfold detect_statement_format.
  destruct (existsb (Text.contains "Commonwealth Bank of Australia") lines) eqn:A;
    [apply any_line_contains in A | apply no_line_contains in A].
  { repeat split; try discriminate; tauto. }
  destruct (existsb (Text.contains "TRANS. POST") lines) eqn:B;
    [apply any_line_contains in B | apply no_line_contains in B].
  { repeat split; try discriminate; tauto. }
  destruct (existsb (Text.contains "OpeningBalance") lines) eqn:C;
    [apply any_line_contains in C | apply no_line_contains in C].
  { repeat split; try discriminate; tauto. }
  repeat split; try discriminate; tauto.
Qed.

(* ------------------------------------------------------------------ *)
(** ** The parsers *)

Lemma parse_transactions_loop (statement_format : StatementFormat) (lines : list string) :
  parse_transactions statement_format lines =
  transactions_from (start_of statement_format) lines.
Proof.
  rewrite <- parse_lines_spec. now destruct statement_format.
Qed.


(** C3: for each of the three parsers, lines that match nothing before the
    first matching line are discarded; the lines after a matching line that
    do not match are appended to its description, trimmed, each after one
    space, in order; the next matching line starts the second transaction;
    the transaction being accumulated when the lines end is emitted. *)
Theorem continuation_lines_extend_description
        (statement_format : StatementFormat)
        (before : list string) (m1 : string) (cs : list string) (m2 : string)
        (t1 t2 : RawTransaction) :
  Forall (fun line => start_of statement_format line = None) before ->
  start_of statement_format m1 = Some t1 ->
  Forall (fun line => start_of statement_format line = None) cs ->
  start_of statement_format m2 = Some t2 ->
  let first :=
    (raw_date t1, (raw_description t1 ++ appended cs)%string, raw_amount t1) in
  parse_transactions statement_format (before ++ m1 :: cs) = [first] /\
  parse_transactions statement_format (before ++ m1 :: cs ++ [m2]) = [first; t2].
Proof.
  intros B M1 C M2. cbv zeta.
  rewrite !parse_transactions_loop, !transactions_from_skip by exact B.
  destruct t1 as [[d1 desc1] a1], t2 as [[d2 desc2] a2].
  cbn [transactions_from raw_date raw_description raw_amount fst snd].
  rewrite M1. split.
  - rewrite continuation_lines_all by exact C.
    rewrite <- (app_nil_r cs) at 2.
    now rewrite transactions_from_skip by exact C.
  - rewrite continuation_lines_until by (exact C || congruence).
    rewrite transactions_from_skip by exact C.
    cbn [transactions_from continuation_lines appended fold_right]. rewrite M2.
    now rewrite append_empty_r.
Qed.

(** The shape of C3 on a statement of each format: a header line, a
    transaction with two continuation lines, and a second transaction. *)
Lemma continuation_lines_extend_description_witness :
  (Forall (fun line => start_of credit_card line = None) ["TRANS. POST"]
   /\ start_of credit_card "001 JAN 05 JAN 07 NETFLIX.COM 15.99"
      = Some ("JAN 05", "NETFLIX.COM", "15.99")
   /\ Forall (fun line => start_of credit_card line = None) ["  LOS GATOS CA "; "REF 4471"]
   /\ start_of credit_card "002 JAN 06 JAN 08 UBER TRIP 23.10"
      = Some ("JAN 06", "UBER TRIP", "23.10")
   /\ parse_transactions credit_card
        ["TRANS. POST"; "001 JAN 05 JAN 07 NETFLIX.COM 15.99"; "  LOS GATOS CA ";
         "REF 4471"; "002 JAN 06 JAN 08 UBER TRIP 23.10"]
      = [("JAN 05", "NETFLIX.COM LOS GATOS CA REF 4471", "15.99");
         ("JAN 06", "UBER TRIP", "23.10")])
  /\ parse_transactions debit_card
       ["Date Description"; "Jan6 Pointofsalepurchase 4.50 95.50"; " TIM HORTONS #12";
        "Toronto ON"; "Jan7 Deposit 50.00 145.50"]
     = [("Jan6", "Pointofsalepurchase TIM HORTONS #12 Toronto ON", "4.50");
        ("Jan7", "Deposit", "50.00")]
  /\ parse_transactions commonwealth_bank
       ["Commonwealth Bank of Australia"; "03 Jan Woolworths 42.10 957.90";
        "Card xx1234"; "Value Date: 01/01"; "04 Jan Netflix 15.99 941.91"]
     = [("03 Jan", "Woolworths Card xx1234 Value Date: 01/01", "42.10");
        ("04 Jan", "Netflix", "15.99")].
Proof.
  assert (H1 : Forall (fun line => start_of credit_card line = None) ["TRANS. POST"])
    by (repeat constructor).
  assert (H2 : Forall (fun line => start_of credit_card line = None)
                      ["  LOS GATOS CA "; "REF 4471"])
    by (repeat constructor).
  split; [split; [exact H1|split; [reflexivity|split; [exact H2|split; [reflexivity|]]]]
         |split].
  - exact (proj2 (continuation_lines_extend_description credit_card
                    ["TRANS. POST"] "001 JAN 05 JAN 07 NETFLIX.COM 15.99"
                    ["  LOS GATOS CA "; "REF 4471"] "002 JAN 06 JAN 08 UBER TRIP 23.10"
                    ("JAN 05", "NETFLIX.COM", "15.99") ("JAN 06", "UBER TRIP", "23.10")
                    H1 eq_refl H2 eq_refl)).
  - refine (proj2 (continuation_lines_extend_description debit_card
                     ["Date Description"] "Jan6 Pointofsalepurchase 4.50 95.50"
                     [" TIM HORTONS #12"; "Toronto ON"] "Jan7 Deposit 50.00 145.50"
                     ("Jan6", "Pointofsalepurchase", "4.50") ("Jan7", "Deposit", "50.00")
                     _ eq_refl _ eq_refl)); repeat constructor.
  - refine (proj2 (continuation_lines_extend_description commonwealth_bank
                     ["Commonwealth Bank of Australia"] "03 Jan Woolworths 42.10 957.90"
                     ["Card xx1234"; "Value Date: 01/01"] "04 Jan Netflix 15.99 941.91"
                     ("03 Jan", "Woolworths", "42.10") ("04 Jan", "Netflix", "15.99")
                     _ eq_refl _ eq_refl)); repeat constructor.
Defined.

(* ------------------------------------------------------------------ *)
(** ** The normaliser *)

Lemma truncate_after_strip (x : string) :
  truncate_words (Text.strip x) = truncate_words x.
Proof. unfold truncate_words. now rewrite split_strip. Qed.

(** The column-wise steps of [normalize_transactions] amount to keeping
    the surviving rows, in order, and normalizing each on its own. *)
Lemma normalize_transactions_rowwise (transactions : list RawTransaction)
      (statement_format : StatementFormat) :
  normalize_transactions transactions statement_format =
  map (normal_row statement_format) (filter (survives statement_format) transactions).
Proof.
  unfold normalize_transactions, make_frame, assign_Amount, assign_Date,
    assign_Description, dropna_Amount, drop_matching.
  induction transactions as [|t ts IH].
  - now destruct statement_format.
  - cbn [map filter]. unfold survives at 1. unfold amount_value at 1.
    cbn [Amount Description Date Category].
    destruct (Pandas.isna (Pandas.to_numeric (Text.replace false "," "" (raw_amount t))))
      eqn:NA; cbn [negb andb].
    + destruct statement_format; exact IH.
    + destruct statement_format; cbn [map filter exclusions Description];
        (destruct (str_contains _ (raw_description t)); cbn [negb map];
         [exact IH | rewrite <- IH; f_equal]).
      unfold normal_row, final_description, remove_point_of_sale, amount_value.
      cbn [Date Description Amount Category date_layout].
      now rewrite truncate_after_strip.
Qed.

Lemma filter_subsequence {X : Type} (keep : X -> bool) (l : list X) :
  subsequence (filter keep l) l.
Proof.
  induction l as [|x l IH]; simpl; [constructor|].
  destruct (keep x); now constructor.
Qed.

Lemma survives_spec (statement_format : StatementFormat) (t : RawTransaction) :
  survives statement_format t = true <->
  Pandas.isna (amount_value t) = false /\
  ~ mentions_any (exclusions statement_format) (raw_description t).
Proof.
  unfold survives. rewrite andb_true_iff, !negb_true_iff.
  rewrite <- str_contains_mentions_any.
  now destruct (str_contains _ _).
Qed.

Lemma no_blank_drop (n : nat) (s : string) :
  no_blank s = true -> no_blank (Pandas.drop n s) = true.
Proof.
  revert s. induction n as [|n IH]; intros [|c s] H; cbn; auto.
  apply IH. cbn in H. now apply andb_true_iff in H.
Qed.

Lemma blanks_candidates_none (s : string) :
  no_blank s = true -> Pandas.blanks_candidates s = [].
Proof.
  destruct s as [|c s]; [reflexivity|]. cbn. intros H.
  apply andb_true_iff in H. destruct H as [H _]. apply negb_true_iff in H.
  now rewrite H.
Qed.

Lemma month_candidates_rest (names : list string) (s : string) :
  forall number m rest,
    In (m, rest) (Pandas.month_candidates names number s) ->
    exists n, rest = Pandas.drop n s.
Proof.
  induction names as [|name names IH]; intros number m rest; cbn; [intros []|].
  intros I. apply in_app_or in I. destruct I as [I | I].
  - destruct (Text.starts_with true name s); [|destruct I].
    destruct I as [E | []]. injection E as _ <-. eauto.
  - eapply IH, I.
Qed.

Lemma flat_map_nothing {X Y : Type} (f : X -> list Y) (l : list X) :
  (forall x, In x l -> f x = []) -> flat_map f l = [].
Proof.
  induction l as [|x l IH]; [reflexivity|]. intros H. cbn.
  rewrite (H x) by now left. apply IH. intros y I. apply H. now right.
Qed.

(** "%b %d" needs a blank between the month and the day. *)
Lemma month_day_needs_blank (s : string) :
  no_blank s = true -> Pandas.to_datetime Pandas.fmt_b_d s = None.
Proof.
  intros B. unfold Pandas.to_datetime, Pandas.fmt_b_d. cbn [Pandas.matches].
  rewrite flat_map_nothing; [reflexivity|].
  intros [m rest] I. destruct (month_candidates_rest _ _ _ _ _ I) as (n & ->).
  now rewrite blanks_candidates_none by now apply no_blank_drop.
Qed.

Lemma day_candidates_rest (s : string) (d : nat) (rest : string) :
  In (d, rest) (Pandas.day_candidates s) -> exists n, rest = Pandas.drop n s.
Proof.
  destruct s as [|a s1]; [intros []|].
  assert (two : forall ok value,
             In (d, rest)
                match s1 with
                | String b s2 =>
                    if ok && Re.is_digit b then [(value + Pandas.digit_nat b, s2)] else []
                | EmptyString => []
                end ->
             exists n, rest = Pandas.drop n (String a s1)).
  { intros ok value I. destruct s1 as [|b s2]; [destruct I|].
    destruct (ok && Re.is_digit b); [|destruct I].
    destruct I as [E | []]. injection E as _ <-. now exists 2. }
  cbn [Pandas.day_candidates]. intros I.
  repeat (apply in_app_or in I; destruct I as [I | I]); eauto.
  destruct (Pandas.digit_in 1 9 a); [|destruct I].
  destruct I as [E | []]. injection E as _ <-. now exists 1.
Qed.

(** "%d %b" needs a blank between the day and the month. *)
Lemma day_month_needs_blank (s : string) :
  no_blank s = true -> Pandas.to_datetime Pandas.fmt_d_b s = None.
Proof.
  intros B. unfold Pandas.to_datetime, Pandas.fmt_d_b. cbn [Pandas.matches].
  rewrite flat_map_nothing; [reflexivity|].
  intros [d rest] I. destruct (day_candidates_rest _ _ _ I) as (n & ->).
  now rewrite blanks_candidates_none by now apply no_blank_drop.
Qed.

Lemma date_needs_blank (statement_format : StatementFormat) (s : string) :
  no_blank s = true -> Pandas.to_datetime (date_layout statement_format) s = None.
Proof.
  destruct statement_format; cbn [date_layout];
    [apply day_month_needs_blank | apply month_day_needs_blank ..].
Qed.

Lemma descriptions_of_rows (statement_format : StatementFormat)
      (kept : list RawTransaction) :
  map Description (map (normal_row statement_format) kept)
  = map (final_description statement_format) (map raw_description kept).
Proof. rewrite !map_map. reflexivity. Qed.

(** Which rows survive does not depend on the date texts. *)
Lemma survivors_whatever_the_dates (statement_format : StatementFormat)
      (redate : RawTransaction -> string) (transactions : list RawTransaction) :
  map raw_description
      (filter (survives statement_format)
              (map (fun t => (redate t, raw_description t, raw_amount t)) transactions))
  = map raw_description (filter (survives statement_format) transactions).
Proof.
  induction transactions as [|t ts IH]; [reflexivity|].
  cbn [map filter].
  change (survives statement_format (redate t, raw_description t, raw_amount t))
    with (survives statement_format t).
  destruct (survives statement_format t); cbn [map]; now rewrite IH.
Qed.

(** C1, as the code has it: every row of the output has a number as its
    amount, never NaN (it need not be finite), and the rows of the output
    are, in order, the input rows whose amount text parses and whose
    description has none of the format's markers: a row whose amount text
    does not parse leaves no trace.  The date text decides nothing: with
    other date texts the same rows come out.  A row whose date text does
    not parse is kept with the null date; that is so of every date text
    without a blank (the words "now" and "today" apart), for both date
    layouts ask for one. *)
Theorem normalize_transactions_rows
        (transactions : list RawTransaction) (statement_format : StatementFormat) :
  let out := normalize_transactions transactions statement_format in
  Forall (fun r => Pandas.isna (Amount r) = false) out
  /\ map Description out
     = map (fun t => final_description statement_format (raw_description t))
           (filter (survives statement_format) transactions)
  /\ (forall t,
         survives statement_format t = true <->
         Pandas.isna (amount_value t) = false /\
         ~ mentions_any (exclusions statement_format) (raw_description t))
  /\ (forall redate : RawTransaction -> string,
         map Description
             (normalize_transactions
                (map (fun t => (redate t, raw_description t, raw_amount t)) transactions)
                statement_format)
         = map Description out)
  /\ (forall t,
         In t transactions ->
         survives statement_format t = true ->
         no_blank (raw_date t) = true ->
         Text.lower (raw_date t) <> "now" ->
         Text.lower (raw_date t) <> "today" ->
         exists r,
           In r out /\ Date r = None /\
           Description r = final_description statement_format (raw_description t)).
Proof.
  cbv zeta. rewrite !normalize_transactions_rowwise.
  split; [|split; [|split; [|split]]].
  - apply Forall_forall. intros r I. apply in_map_iff in I.
    destruct I as (t & <- & I). apply filter_In in I. destruct I as [_ S].
    apply survives_spec in S. exact (proj1 S).
  - rewrite map_map. reflexivity.
  - intros t. apply survives_spec.
  - intros redate.
    rewrite normalize_transactions_rowwise, !descriptions_of_rows.
    now rewrite survivors_whatever_the_dates.
  - intros t I S B _ _. exists (normal_row statement_format t). split.
    + apply in_map, filter_In. now split.
    + cbn [normal_row Date Description]. split; [|reflexivity].
      now apply date_needs_blank.
Qed.

(** C1, the claim as written fails: the debit-card parser captures dates
    like "Jan5", which "%b %d" does not parse, and the row is kept with a
    null date; an amount text "inf" is kept as an infinite amount.  So not
    every output row has a parsed date and a finite amount. *)
Lemma normalize_keeps_row_without_date :
  parse_debit_card_transactions ["Jan5 Coffee Shop 4.50 95.50"]
  = [("Jan5", "Coffee Shop", "4.50")]
  /\ Pandas.to_datetime Pandas.fmt_b_d "Jan5" = None
  /\ normalize_transactions
       [("Jan5", "Coffee Shop", "4.50"); ("Jan 6", "Tea House", "inf")] debit_card
     = [mkRow None "Coffee Shop" (Pandas.Fin (9 # 2)) None;
        mkRow (Some (Pandas.mkTimestamp 1900 1 6)) "Tea House" (Pandas.Inf false) None]
  /\ ~ Forall (fun r => Date r <> None)
        (normalize_transactions [("Jan5", "Coffee Shop", "4.50")] debit_card)
  /\ ~ Forall (fun r => Pandas.is_finite (Amount r) = true)
        (normalize_transactions [("Jan 6", "Tea House", "inf")] debit_card).
Proof.
  split; [|split; [|split; [|split]]]; try (vm_compute; reflexivity).
  - intros H. inversion_clear H as [|? ? D _]. now apply D.
  - intros H. inversion_clear H as [|? ? F _]. discriminate F.
Qed.

(** C7, as the code has it: of the debit-card rows, exactly those
    survive, in order, whose amount parses and whose raw description has
    none of the four markers in any letter case.  A surviving description
    loses every occurrence of "Pointofsalepurchase", in any letter case,
    and is cut to its first three tokens, joined by single spaces.  Of the
    two rows "OpeningBalance 100.00" and "Coffee Shop Purchase" the second
    alone is left. *)
Theorem debit_card_rows (transactions : list RawTransaction) :
  normalize_transactions transactions debit_card
  = map (normal_row debit_card) (filter (survives debit_card) transactions)
  /\ (forall t,
         survives debit_card t = true <->
         Pandas.isna (amount_value t) = false /\
         ~ mentions_any debit_card_exclusions (raw_description t))
  /\ (forall t,
         let cleaned := Text.replace true "Pointofsalepurchase" "" (raw_description t) in
         Description (normal_row debit_card t) = Text.join " " (firstn 3 (Text.split cleaned))
         /\ Text.split (Description (normal_row debit_card t)) = firstn 3 (Text.split cleaned)
         /\ List.length (Text.split (Description (normal_row debit_card t))) <= 3
         /\ (~ occurs_ignoring_case "Pointofsalepurchase" (raw_description t) ->
             cleaned = raw_description t))
  /\ (forall d1 a1 d2 a2,
         Pandas.isna (amount_value (d2, "Coffee Shop Purchase", a2)) = false ->
         normalize_transactions
           [(d1, "OpeningBalance 100.00", a1); (d2, "Coffee Shop Purchase", a2)] debit_card
         = [mkRow (Pandas.to_datetime Pandas.fmt_b_d d2) "Coffee Shop Purchase"
                  (amount_value (d2, "Coffee Shop Purchase", a2)) None]).
Proof.
  split; [|split; [|split]].
  - apply normalize_transactions_rowwise.
  - intros t. apply survives_spec.
  - intros t. cbv zeta. cbn [normal_row Description final_description].
    split; [reflexivity|]. rewrite split_truncated.
    split; [reflexivity|]. split; [apply firstn_le_length|].
    intros N. apply replace_nothing.
    destruct (Text.find true "Pointofsalepurchase" (raw_description t)) eqn:F;
      [|reflexivity].
    exfalso. now apply N, find_occurs_ignoring_case.
  - intros d1 a1 d2 a2 NA. rewrite normalize_transactions_rowwise.
    assert (S1 : survives debit_card (d1, "OpeningBalance 100.00", a1) = false).
    { unfold survives. cbn [raw_description fst snd exclusions].
      replace (str_contains debit_card_exclusions "OpeningBalance 100.00") with true
        by (vm_compute; reflexivity).
      apply andb_false_r. }
    assert (S2 : survives debit_card (d2, "Coffee Shop Purchase", a2) = true).
    { unfold survives. rewrite NA. vm_compute. reflexivity. }
    cbn [filter]. rewrite S1, S2. reflexivity.
Qed.

(** C7, the claim as written fails: a row whose description has none of
    the markers is dropped when its amount text does not parse, and
    "POINTOFSALEPURCHASE", which is not the literal text, is removed too. *)
Lemma debit_card_drops_row_without_marker :
  ~ mentions_any debit_card_exclusions "Coffee Shop Purchase"
  /\ normalize_transactions [("Jan 5", "Coffee Shop Purchase", "n/a")] debit_card = []
  /\ ~ occurs "Pointofsalepurchase" "POINTOFSALEPURCHASE Tim Hortons"
  /\ normalize_transactions
       [("Jan 5", "POINTOFSALEPURCHASE Tim Hortons", "4.50")] debit_card
     = [mkRow (Some (Pandas.mkTimestamp 1900 1 5)) "Tim Hortons"
              (Pandas.Fin (9 # 2)) None].
Proof.
  split; [|split; [|split]].
  - rewrite <- str_contains_mentions_any. vm_compute. discriminate.
  - vm_compute. reflexivity.
  - rewrite <- contains_occurs. vm_compute. discriminate.
  - vm_compute. reflexivity.
Qed.

(* ------------------------------------------------------------------ *)
(** ** Order *)

(** C8: for each format the parser emits the transactions in the order of
    the lines that start them, one per starting line; when no continuation
    line follows a starting line, the transactions are exactly what the
    starting lines capture; and the normaliser keeps a subsequence of its
    input rows, in order, normalizing each kept row on its own. *)
Theorem parsing_and_normalizing_keep_order
        (statement_format : StatementFormat) (lines : list string) :
  Forall2 (fun t m =>
             raw_date t = raw_date m /\ raw_amount t = raw_amount m /\
             exists tail, raw_description t = (raw_description m ++ tail)%string)
          (parse_transactions statement_format lines)
          (started (start_of statement_format) lines)
  /\ (forall before body,
         lines = before ++ body ->
         Forall (fun line => start_of statement_format line = None) before ->
         Forall (fun line => start_of statement_format line <> None) body ->
         parse_transactions statement_format lines
         = started (start_of statement_format) body
         /\ List.length (parse_transactions statement_format lines) = List.length body)
  /\ (forall transactions,
         exists kept,
           subsequence kept transactions /\
           normalize_transactions transactions statement_format
           = map (normal_row statement_format) kept).
Proof.
  rewrite parse_transactions_loop. split; [|split].
  - apply transactions_from_started.
  - intros before body -> B M.
    rewrite transactions_from_skip by exact B.
    rewrite transactions_from_all_start by exact M.
    split; [reflexivity | now apply started_all_start].
  - intros transactions. exists (filter (survives statement_format) transactions).
    split; [apply filter_subsequence | apply normalize_transactions_rowwise].
Qed.

(* ------------------------------------------------------------------ *)
(** ** The categoriser *)

Lemma lower_split (text a b : string) :
  Text.lower text = (a ++ b)%string ->
  exists x y, text = (x ++ y)%string /\ Text.lower x = a /\ Text.lower y = b.
Proof.
  revert text. induction a as [|c a IH]; intros text H.
  - now exists "", text.
  - destruct text as [|d text]; [discriminate|].
    simpl in H. injection H as C H. destruct (IH _ H) as (x & y & -> & X & Y).
    exists (String d x), y. simpl. repeat split; congruence.
Qed.

(** For a lowercase word, occurring in the lowered text is occurring in
    the text up to letter case. *)
Lemma occurs_in_lowered (word text : string) :
  Text.lower word = word ->
  occurs word (Text.lower text) <-> occurs_ignoring_case word text.
Proof.
  intros L. split.
  - intros (pre & post & H).
    destruct (lower_split _ _ _ H) as (x & rest & -> & X & R).
    destruct (lower_split _ _ _ R) as (mid & y & -> & M & Y).
    exists x, mid, y. split; congruence.
  - intros (pre & mid & post & -> & M).
    exists (Text.lower pre), (Text.lower post).
    rewrite !lower_append. congruence.
Qed.

Lemma any_keyword_occurs (keywords : list string) (lowered : string) :
  any_keyword keywords lowered = true <->
  exists keyword, In keyword keywords /\ occurs keyword lowered.
Proof.
  induction keywords as [|k ks IH]; simpl.
  - split; [discriminate | intros (? & [] & _)].
  - destruct (Text.contains k lowered) eqn:C.
    + split; [|reflexivity]. intros _. exists k. split; [now left|].
      now apply contains_occurs.
    + rewrite IH. split.
      * intros (k' & I & O). exists k'. split; [now right | exact O].
      * intros (k' & [<- | I] & O).
        -- apply contains_occurs in O. congruence.
        -- now exists k'.
Qed.

Lemma any_keyword_mentions (keywords : list string) (description : string) :
  (forall keyword, In keyword keywords -> Text.lower keyword = keyword) ->
  any_keyword keywords (Text.lower description) = true <->
  mentions_any keywords description.
Proof.
  intros L. rewrite any_keyword_occurs. unfold mentions_any.
  split; intros (k & I & O); exists k; (split; [exact I|]);
    now apply (occurs_in_lowered k description (L k I)).
Qed.

Lemma categories_lowercase (category : string) (keywords : list string)
      (keyword : string) :
  In (category, keywords) categories -> In keyword keywords ->
  Text.lower keyword = keyword.
Proof.
  assert (A : forallb (fun entry =>
                forallb (fun k => String.eqb (Text.lower k) k) (snd entry))
              categories = true) by reflexivity.
  intros C K. rewrite forallb_forall in A. specialize (A _ C).
  cbn [snd] in A. rewrite forallb_forall in A. now apply String.eqb_eq, A.
Qed.

(** The outer loop over a table whose keywords are lowercase: the first
    entry with a keyword in the description wins, else "Other". *)
Lemma first_category_order (table : list (string * list string)) (description : string) :
  (forall c ks k, In (c, ks) table -> In k ks -> Text.lower k = k) ->
  (forall before category keywords after,
      table = before ++ (category, keywords) :: after ->
      mentions_any keywords description ->
      (forall c ks, In (c, ks) before -> ~ mentions_any ks description) ->
      first_category table description = category)
  /\ ((forall c ks, In (c, ks) table -> ~ mentions_any ks description) ->
      first_category table description = "Other").
Proof.
  induction table as [|[c0 ks0] table IH]; intros L.
  - split; [|reflexivity]. intros [|] ? ? ? H; discriminate.
  - assert (L0 : forall k, In k ks0 -> Text.lower k = k)
      by (intros k; apply (L c0 ks0 k); now left).
    assert (L' : forall c ks k, In (c, ks) table -> In k ks -> Text.lower k = k)
      by (intros c ks k I; apply (L c ks k); now right).
    destruct (IH L') as [IH1 IH2]. clear IH. cbn [first_category].
    pose proof (any_keyword_mentions ks0 description L0) as M.
    split.
    + intros before category keywords after E H N.
      destruct before as [|[c1 ks1] before]; cbn [app] in E; injection E as <- <- E.
      * apply M in H. now rewrite H.
      * destruct (any_keyword ks0 (Text.lower description)) eqn:A.
        -- exfalso. apply (N c0 ks0); [now left | now apply M].
        -- apply (IH1 before category keywords after E H).
           intros c ks I. apply (N c ks). now right.
    + intros N. destruct (any_keyword ks0 (Text.lower description)) eqn:A.
      * exfalso. apply (N c0 ks0); [now left | now apply M].
      * apply IH2. intros c ks I. apply (N c ks). now right.
Qed.

(** C6: every row gets the category [get_category] finds for its
    description; that is the first entry of the table, in the order the
    table is written, one of whose keywords is in the description up to
    letter case, whatever the keywords' lengths and positions; when no
    keyword of the table is in the description it is "Other", the last
    entry of the table, which has no keyword. *)
Theorem categorize_expenses_first_table_entry
        {D A : Type} (df : DataFrame D A) (description : string) :
  map Category (categorize_expenses df)
  = map (fun r => Some (get_category (Description r))) df
  /\ (forall before category keywords after,
         categories = before ++ (category, keywords) :: after ->
         mentions_any keywords description ->
         (forall c ks, In (c, ks) before -> ~ mentions_any ks description) ->
         get_category description = category)
  /\ ((forall c ks, In (c, ks) categories -> ~ mentions_any ks description) ->
      get_category description = "Other")
  /\ last categories ("", []) = ("Other", []).
Proof.
  split; [|split; [|split]].
  - unfold categorize_expenses. rewrite map_map. reflexivity.
  - apply first_category_order. exact categories_lowercase.
  - apply first_category_order. exact categories_lowercase.
  - reflexivity.
Qed.

(** C9: categorizing a categorized frame again changes nothing: every
    row keeps the category the first run gave it. *)
Theorem categorize_expenses_idempotent {D A : Type} (df : DataFrame D A) :
  categorize_expenses (categorize_expenses df) = categorize_expenses df
  /\ map Category (categorize_expenses (categorize_expenses df))
     = map Category (categorize_expenses df).
Proof.
  assert (E : categorize_expenses (categorize_expenses df) = categorize_expenses df).
  { unfold categorize_expenses. rewrite map_map. apply map_ext. reflexivity. }
  split; [exact E | now rewrite E].
Qed.

(** C10: [categorize_expenses] keeps the rows, their number and order,
    and the date, description and amount of each; only the category
    column is written. *)
Theorem categorize_expenses_frame {D A : Type} (df : DataFrame D A) :
  List.length (categorize_expenses df) = List.length df
  /\ map Date (categorize_expenses df) = map Date df
  /\ map Description (categorize_expenses df) = map Description df
  /\ map Amount (categorize_expenses df) = map Amount df
  /\ Forall2 (fun r r' =>
                r' = mkRow (Date r) (Description r) (Amount r) (Category r'))
             df (categorize_expenses df).
Proof.
  unfold categorize_expenses. rewrite length_map, !map_map. cbn [Date Description Amount].
  repeat split.
  induction df as [|r df IH]; constructor; [reflexivity | exact IH].
Qed.

(* ------------------------------------------------------------------ *)
(** ** The scenario of the specification *)

(** C5: the credit-card chain on the single line
    "001 JAN 05 JAN 07 NETFLIX.COM 15.99" gives one row: 5 January (the
    transaction date), "NETFLIX.COM", 15.99, "Subscriptions". *)
Theorem netflix_line_scenario :
  detect_statement_format ["001 JAN 05 JAN 07 NETFLIX.COM 15.99"] = credit_card
  /\ parse_credit_card_transactions ["001 JAN 05 JAN 07 NETFLIX.COM 15.99"]
     = [("JAN 05", "NETFLIX.COM", "15.99")]
  /\ analyse credit_card ["001 JAN 05 JAN 07 NETFLIX.COM 15.99"]
     = [mkRow (Some (Pandas.mkTimestamp 1900 1 5)) "NETFLIX.COM"
              (Pandas.Fin (1599 # 100)) (Some "Subscriptions")].
Proof. repeat split; vm_compute; reflexivity. Qed.

(* ------------------------------------------------------------------ *)
(** ** Examples *)

Example truncation_example :
  truncate_words "Woolworths Metro Store 123 Sydney" = "Woolworths Metro Store".
Proof. reflexivity. Qed.

Example detect_priority_example :
  detect_statement_format
    ["TRANS. POST DATE"; "OpeningBalance"; "Commonwealth Bank of Australia ABN 48"]
  = commonwealth_bank
  /\ detect_statement_format ["Statement of account"; "Page 1 of 3"] = credit_card.
Proof. split; reflexivity. Qed.

(** "music" (Entertainment) is declared before "amazon" (Shopping), though
    "amazon" is the longer keyword and comes first in the description. *)
Example category_priority_example :
  get_category "Amazon Music" = "Entertainment"
  /\ get_category "AMAZON Marketplace" = "Shopping"
  /\ get_category "Hardware Store" = "Other".
Proof. repeat split; reflexivity. Qed.

Example commonwealth_bank_line_example :
  Re.re_match commonwealth_bank_pattern "02 Jan Salary  ACME 1,000.00 2,000.00"
  = Some ["02 Jan"; "Salary  ACME"; "1,000.00"; "2,000.00"]
  /\ Re.re_match commonwealth_bank_pattern "02 Jan Salary 1,000.00" = None.
Proof. split; reflexivity. Qed.

Example to_datetime_examples :
  Pandas.to_datetime Pandas.fmt_b_d "JAN 05" = Some (Pandas.mkTimestamp 1900 1 5)
  /\ Pandas.to_datetime Pandas.fmt_d_b "31 Dec" = Some (Pandas.mkTimestamp 1900 12 31)
  /\ Pandas.to_datetime Pandas.fmt_b_d "Feb 29" = None
  /\ Pandas.to_datetime Pandas.fmt_b_d "Jan 5 2024" = None.
Proof. repeat split; reflexivity. Qed.

Example to_numeric_examples :
  Pandas.to_numeric "1234.50" = Pandas.Fin (2469 # 2)
  /\ Pandas.to_numeric "-15.99" = Pandas.Fin (- 1599 # 100)
  /\ Pandas.to_numeric "" = Pandas.NaN
  /\ Pandas.to_numeric "12.3.4" = Pandas.NaN
  /\ Pandas.to_numeric "-Infinity" = Pandas.Inf true.
Proof. repeat split; reflexivity. Qed.

(** A statement of each kind, through the whole chain. *)
Example debit_card_statement_example :
  analyse debit_card
    ["Jan5 OpeningBalance 100.00 100.00";
     "Jan6 Pointofsalepurchase Tim Hortons #12 Toronto 4.50 95.50";
     "Jan7 Deposit 50.00 145.50"]
  = [mkRow None "Tim Hortons #12" (Pandas.Fin (9 # 2)) (Some "Dining/Takeout")].
Proof. vm_compute. reflexivity. Qed.

Example commonwealth_bank_statement_example :
  analyse commonwealth_bank
    ["Commonwealth Bank of Australia";
     "01 Jan OPENING BALANCE 0.00 1,000.00";
     "03 Jan Woolworths Metro Store 123 Sydney 42.10 957.90";
     "Card xx1234"]
  = [mkRow (Some (Pandas.mkTimestamp 1900 1 3)) "Woolworths Metro Store"
           (Pandas.Fin (421 # 10)) (Some "Groceries")].
Proof. vm_compute. reflexivity. Qed.

(* ------------------------------------------------------------------ *)
(** ** The lines of the uploaded file *)

Lemma push_char_no_linebreak (c : ascii) (following : list string) :
  is_linebreak c = false ->
  Forall (fun line => no_linebreak line = true) following ->
  Forall (fun line => no_linebreak line = true) (push_char c following).
Proof.
  intros C F. destruct F as [|line rest L R]; cbn [push_char].
  - constructor; [|constructor]. cbn. now rewrite C.
  - constructor; [|exact R]. cbn. now rewrite C, L.
Qed.

Lemma splitlines_from_no_linebreak (text : string) :
  forall after_cr,
    Forall (fun line => no_linebreak line = true) (splitlines_from after_cr text).
Proof.
  induction text as [|c text IH]; intros after_cr; cbn [splitlines_from].
  - constructor.
  - destruct (after_cr && (Text.code c =? 10)); [apply IH|].
    destruct (is_linebreak c) eqn:B.
    + constructor; [reflexivity | apply IH].
    + apply push_char_no_linebreak; [exact B | apply IH].
Qed.

Lemma concat_empty_first (following : list string) :
  String.concat "" ("" :: following) = String.concat "" following.
Proof. now destruct following. Qed.

Lemma concat_push_char (c : ascii) (following : list string) :
  String.concat "" (push_char c following) = String c (String.concat "" following).
Proof. destruct following as [|line [|next rest]]; reflexivity. Qed.

Lemma concat_cons (x : string) (following : list string) :
  String.concat "" (x :: following) = (x ++ String.concat "" following)%string.
Proof.
  destruct following; cbn [String.concat]; [now rewrite append_empty_r | reflexivity].
Qed.

Lemma concat_app (xs ys : list string) :
  String.concat "" (xs ++ ys) = (String.concat "" xs ++ String.concat "" ys)%string.
Proof.
  induction xs as [|x xs IH]; [reflexivity|].
  cbn [app]. now rewrite !concat_cons, IH, append_assoc.
Qed.

Lemma splitlines_from_characters (text : string) :
  forall after_cr,
    String.concat "" (splitlines_from after_cr text) = without_linebreaks text.
Proof.
  induction text as [|c text IH]; intros after_cr; [reflexivity|].
  cbn [splitlines_from without_linebreaks].
  destruct (after_cr && (Text.code c =? 10)) eqn:S.
  - apply andb_true_iff in S. destruct S as [_ S]. apply Nat.eqb_eq in S.
    assert (B : is_linebreak c = true)
      by (unfold is_linebreak, Text.between; now rewrite S).
    rewrite B. apply IH.
  - destruct (is_linebreak c).
    + rewrite concat_empty_first. apply IH.
    + rewrite concat_push_char. now rewrite IH.
Qed.

(** X1: extraction keeps the characters of the pages and their order, takes
    out exactly the line terminators, and no extracted line has a line
    terminator inside; a page without text, or with empty text, gives no
    line. *)
Theorem extract_lines_from_pdf_lines (page_texts : list (option string)) :
  Forall (fun line => no_linebreak line = true) (extract_lines_from_pdf page_texts)
  /\ String.concat "" (extract_lines_from_pdf page_texts)
     = String.concat ""
         (map (fun page_text =>
                 match page_text with
                 | Some text => without_linebreaks text
                 | None => ""
                 end) page_texts)
  /\ extract_lines_from_pdf (None :: page_texts) = extract_lines_from_pdf page_texts
  /\ extract_lines_from_pdf (Some "" :: page_texts) = extract_lines_from_pdf page_texts.
Proof.
  split; [|split; [|split; reflexivity]].
  - unfold extract_lines_from_pdf. apply Forall_flat_map, Forall_forall.
    intros [[|c text]|] _; try constructor. apply splitlines_from_no_linebreak.
  - induction page_texts as [|page rest IH]; [reflexivity|].
    change (extract_lines_from_pdf (page :: rest))
      with ((match page with
             | Some (String c text) => splitlines (String c text)
             | _ => []
             end) ++ extract_lines_from_pdf rest).
    rewrite concat_app, IH. cbn [map]. rewrite (concat_cons _ (map _ rest)). f_equal.
    destruct page as [[|c text]|]; try reflexivity.
    apply splitlines_from_characters.
Qed.

(* ------------------------------------------------------------------ *)
(** ** Properties of the parsers beyond the claims *)

Section ParserFacts.

Variable start : string -> option RawTransaction.

Lemma transactions_from_nil (lines : list string) :
  transactions_from start lines = [] <->
  Forall (fun line => start line = None) lines.
Proof.
  induction lines as [|line rest IH]; cbn [transactions_from].
  - split; [constructor | reflexivity].
  - destruct (start line) as [[[d desc] a]|] eqn:S.
    + split; [discriminate|]. intros F. inversion_clear F. congruence.
    + rewrite IH. split; [now constructor | intros F; now inversion_clear F].
Qed.

Lemma continuation_lines_before_start (head tail : list string) (m : string) :
  start m <> None ->
  continuation_lines start (head ++ m :: tail) = continuation_lines start head.
Proof.
  intros M. induction head as [|line head IH]; cbn [app continuation_lines].
  - destruct (start m); congruence.
  - destruct (start line); [reflexivity | now rewrite IH].
Qed.

Lemma transactions_from_app (head tail : list string) (m : string) :
  start m <> None ->
  transactions_from start (head ++ m :: tail)
  = transactions_from start head ++ transactions_from start (m :: tail).
Proof.
  intros M. induction head as [|line head IH]; [reflexivity|].
  cbn [app transactions_from]. destruct (start line) as [[[d desc] a]|].
  - rewrite continuation_lines_before_start by exact M. now rewrite IH.
  - exact IH.
Qed.

End ParserFacts.

(** X2: a document none of whose lines starts a transaction, the empty
    document among them, gives no transaction, and no other document does;
    the table of such a document has no row. *)
Theorem nothing_without_a_starting_line
        (statement_format : StatementFormat) (lines : list string) :
  (parse_transactions statement_format lines = [] <->
   Forall (fun line => start_of statement_format line = None) lines)
  /\ (Forall (fun line => start_of statement_format line = None) lines ->
      analyse statement_format lines = []).
Proof.
  rewrite parse_transactions_loop. split; [apply transactions_from_nil|].
  intros F. unfold analyse. rewrite parse_transactions_loop.
  apply transactions_from_nil in F. rewrite F. now destruct statement_format.
Qed.

(** X3: parsing splits at a line that starts a transaction: the lines before
    it and the lines from it on are parsed independently. *)
Theorem parse_transactions_app
        (statement_format : StatementFormat) (head tail : list string) (m : string) :
  start_of statement_format m <> None ->
  parse_transactions statement_format (head ++ m :: tail)
  = parse_transactions statement_format head
    ++ parse_transactions statement_format (m :: tail).
Proof.
  intros M. rewrite !parse_transactions_loop. now apply transactions_from_app.
Qed.

(** Two debit-card transactions, each with a continuation line, split at
    the line that starts the second. *)
Lemma parse_transactions_app_witness :
  start_of debit_card "Jan7 Deposit 50.00 145.50" <> None
  /\ parse_transactions debit_card
       (["Jan6 Purchase 4.50 95.50"; "TIM HORTONS"]
        ++ "Jan7 Deposit 50.00 145.50" :: ["PAYROLL"])
     = parse_transactions debit_card ["Jan6 Purchase 4.50 95.50"; "TIM HORTONS"]
       ++ parse_transactions debit_card ["Jan7 Deposit 50.00 145.50"; "PAYROLL"].
Proof.
  assert (M : start_of debit_card "Jan7 Deposit 50.00 145.50" <> None)
    by (vm_compute; discriminate).
  split; [exact M|].
  exact (parse_transactions_app debit_card
           ["Jan6 Purchase 4.50 95.50"; "TIM HORTONS"] ["PAYROLL"]
           "Jan7 Deposit 50.00 145.50" M).
Defined.

(* ------------------------------------------------------------------ *)
(** ** Properties of the detector beyond the claims *)

Lemma existsb_same_elements {X : Type} (f : X -> bool) (l l' : list X) :
  (forall x, In x l <-> In x l') -> existsb f l = existsb f l'.
Proof.
  intros E. apply eq_true_iff_eq. rewrite !existsb_exists.
  split; intros (x & I & F); exists x; (split; [now apply E | exact F]).
Qed.

(** X8: the detected format depends on which lines the document has, not on
    their order or on how often each occurs. *)
Theorem detect_statement_format_same_lines (lines lines' : list string) :
  (forall line, In line lines <-> In line lines') ->
  detect_statement_format lines = detect_statement_format lines'.
Proof.
  intros E. unfold detect_statement_format.
  now rewrite !(existsb_same_elements _ lines lines' E).
Qed.

Lemma detect_statement_format_same_lines_witness :
  detect_statement_format ["Page 1"; "TRANS. POST DATE"; "OpeningBalance"]
  = detect_statement_format ["OpeningBalance"; "TRANS. POST DATE"; "Page 1"; "Page 1"].
Proof.
  apply detect_statement_format_same_lines.
  intros line. cbn [In]. tauto.
Defined.

(* ------------------------------------------------------------------ *)
(** ** Properties of the normaliser beyond the claims *)

(** X9: whether a row survives, and with which description, is decided
    row by row: the descriptions of the table of two batches are those of
    the table of the first followed by those of the table of the second,
    the numbers of rows add up, and a table never has more rows than its
    input. *)
Theorem surviving_rows_are_decided_row_by_row
        (first second : list RawTransaction) (statement_format : StatementFormat) :
  map Description (normalize_transactions (first ++ second) statement_format)
  = map Description (normalize_transactions first statement_format)
    ++ map Description (normalize_transactions second statement_format)
  /\ List.length (normalize_transactions (first ++ second) statement_format)
     = List.length (normalize_transactions first statement_format)
       + List.length (normalize_transactions second statement_format)
  /\ List.length (normalize_transactions first statement_format) <= List.length first.
Proof.
  rewrite !normalize_transactions_rowwise, filter_app, map_app, length_app, !length_map.
  split; [apply map_app|]. split; [reflexivity | apply filter_length_le].
Qed.

(* ------------------------------------------------------------------ *)
(** ** Properties of the categoriser beyond the claims *)

Lemma list_index_found (x : string) (options : list string) :
  In x options ->
  exists i, list_index x options = Some i /\ nth i options "" = x
            /\ i < List.length options.
Proof.
  induction options as [|o options IH]; [intros []|].
  intros I. cbn [list_index]. destruct (String.eqb o x) eqn:E.
  - apply String.eqb_eq in E. exists 0. cbn. repeat split; [exact E | lia].
  - destruct I as [-> | I]; [rewrite String.eqb_refl in E; discriminate|].
    destruct (IH I) as (i & -> & N & L). exists (S i). cbn. repeat split; [exact N | lia].
Qed.

Lemma first_category_key (table : list (string * list string)) (description : string) :
  first_category table description = "Other"
  \/ In (first_category table description) (map fst table).
Proof.
  induction table as [|[c ks] table IH]; [now left|].
  cbn [first_category map fst]. destruct (any_keyword ks (Text.lower description)).
  - right. now left.
  - destruct IH as [O | I]; [now left | right; now right].
Qed.

Lemma get_category_option (description : string) :
  In (get_category description) category_options.
Proof.
  destruct (first_category_key categories description) as [O | I]; [|exact I].
  unfold get_category. rewrite O. unfold category_options. cbn. tauto.
Qed.

(** X13: the category of a row is always one of the options of the select box,
    so looking up its position, as [main] does for the default choice,
    never fails, and the option at that position is the category again. *)
Theorem category_is_an_option {D A : Type} (df : DataFrame D A) (description : string) :
  (exists i,
      list_index (get_category description) category_options = Some i
      /\ nth i category_options "" = get_category description
      /\ i < List.length category_options)
  /\ Forall (fun r =>
               exists c i,
                 Category r = Some c /\ list_index c category_options = Some i
                 /\ nth i category_options "" = c)
            (categorize_expenses df).
Proof.
  split.
  - apply list_index_found, get_category_option.
  - unfold categorize_expenses. apply Forall_forall. intros r I.
    apply in_map_iff in I. destruct I as (r0 & <- & _). cbn [Category].
    destruct (list_index_found _ _ (get_category_option (Description r0)))
      as (i & E & N & _).
    now exists (get_category (Description r0)), i.
Qed.

(* ------------------------------------------------------------------ *)
(** ** The texts the patterns capture *)

(** As [rep_consumed], with the upper bound of the quantifier. *)
Lemma rep_consumed_between (k : Re.cls) (greedy : bool)
      (rest : string -> option Re.result) (s : string) :
  forall lo hi t gs,
    Re.rep k lo hi greedy rest s = Some (t, gs) ->
    exists w s' t',
      s = (w ++ s')%string /\ lo <= String.length w /\
      (forall h, hi = Some h -> lo <= h -> String.length w <= h) /\
      all_accepted k w = true /\
      rest s' = Some (t', gs) /\ t = (w ++ t')%string.
Proof.
  induction s as [|c s IH]; intros lo hi t gs H.
  - destruct lo; [|discriminate]. cbn in H.
    assert (R : rest "" = Some (t, gs)).
    { destruct greedy; cbn [Re.or_else] in H; [exact H|].
      destruct (rest ""); [exact H | discriminate]. }
    exists "", "", t. repeat split; auto; intros; cbn; lia.
  - assert (stop : rest (String c s) = Some (t, gs) ->
                   lo = 0 ->
                   exists w s' t',
                     String c s = (w ++ s')%string /\ lo <= String.length w /\
                     (forall h, hi = Some h -> lo <= h -> String.length w <= h) /\
                     all_accepted k w = true /\ rest s' = Some (t', gs) /\
                     t = (w ++ t')%string).
    { intros R ->. exists "", (String c s), t. repeat split; auto; intros; cbn; lia. }
    assert (step : forall lo',
               Re.consume c (Re.rep k lo' (Re.less hi) greedy rest s) = Some (t, gs) ->
               Re.accepts k c = true ->
               lo <= S lo' ->
               (forall h, hi = Some h -> lo <= h -> 1 <= h /\ lo' <= pred h) ->
               exists w s' t',
                 String c s = (w ++ s')%string /\ lo <= String.length w /\
                 (forall h, hi = Some h -> lo <= h -> String.length w <= h) /\
                 all_accepted k w = true /\ rest s' = Some (t', gs) /\
                 t = (w ++ t')%string).
    { intros lo' C A L B.
      destruct (Re.rep k lo' (Re.less hi) greedy rest s) as [[t1 gs1]|] eqn:R;
        [|discriminate].
      cbn in C. injection C as <- <-.
      destruct (IH _ _ _ _ R) as (w & s' & t' & -> & L' & U & W & K & ->).
      exists (String c w), s', t'. cbn. rewrite A, W. repeat split; auto; [lia|].
      intros h E Lh. destruct (B h E Lh) as [H1 H2].
      assert (String.length w <= pred h) by (apply U; [now rewrite E | exact H2]).
      lia. }
    destruct lo as [|lo'].
    + cbn [Re.rep] in H.
      destruct (Re.accepts k c && Re.may_repeat hi) eqn:G.
      * apply andb_true_iff in G. destruct G as [A MR].
        assert (B : forall h, hi = Some h -> 0 <= h -> 1 <= h /\ 0 <= pred h).
        { intros h -> _. destruct h; [discriminate MR | lia]. }
        destruct (Re.consume c (Re.rep k 0 (Re.less hi) greedy rest s))
          as [r|] eqn:C.
        -- destruct greedy; cbn [Re.or_else] in H.
           ++ injection H as ->. exact (step 0 C A (Nat.le_0_l _) B).
           ++ destruct (rest (String c s)) as [r'|] eqn:R'; cbn [Re.or_else] in H;
                injection H as ->.
              ** now apply stop.
              ** exact (step 0 C A (Nat.le_0_l _) B).
        -- apply stop; [|reflexivity].
           destruct greedy; cbn [Re.or_else] in H; [exact H|].
           destruct (rest (String c s)); [exact H | discriminate].
      * apply stop; [|reflexivity].
        destruct greedy; cbn [Re.or_else] in H; [exact H|].
        destruct (rest (String c s)); [exact H | discriminate].
    + cbn [Re.rep] in H. destruct (Re.accepts k c) eqn:A; [|discriminate].
      apply (step lo' H eq_refl (Nat.le_refl _)).
      intros h _ Lh. lia.
Qed.

Lemma item_between (k : Re.cls) (lo : nat) (hi : option nat) (greedy : bool)
      (p : list Re.item) (s t : string) (gs : list string) :
  Re.exec (Re.Rep k lo hi greedy :: p) s = Some (t, gs) ->
  exists w s' t',
    s = (w ++ s')%string /\ lo <= String.length w /\
    (forall h, hi = Some h -> lo <= h -> String.length w <= h) /\
    all_accepted k w = true /\
    Re.exec p s' = Some (t', gs) /\ t = (w ++ t')%string.
Proof. apply rep_consumed_between. Qed.

(** Peels a quantified class from the head of the pattern of a successful
    run [H]: [w] is what it consumed, [L], [U] and [A] its length bounds
    and its class. *)
Ltac peel_counted H w L U A :=
  let s := fresh "s" in
  let t := fresh "t" in
  apply item_between in H;
  destruct H as (w & s & t & -> & L & U & A & H & ->).

Lemma one_literal (c : ascii) (w : string) :
  1 <= String.length w -> String.length w <= 1 ->
  all_accepted (Re.Lit c) w = true -> w = String c "".
Proof.
  destruct w as [|a [|b w]]; cbn; intros L U A; try lia.
  rewrite andb_true_r in A. apply Ascii.eqb_eq in A. now subst.
Qed.

(** [([\d,]+\.\d{2})] captures a decimal text. *)
Lemma decimal_group_text (p : list Re.item) (s t : string) (gs : list string) :
  Re.exec (Re.decimal_group ++ p) s = Some (t, gs) ->
  exists a gs' s' t',
    gs = a :: gs' /\ decimal_text a /\ Re.exec p s' = Some (t', gs').
Proof.
  unfold Re.decimal_group. cbn [app]. intros H.
  apply open_consumed in H. destruct H as (g & gs' & H & ->).
  peel_counted H whole L1 U1 A1. peel_counted H point L2 U2 A2.
  peel_counted H cents L3 U3 A3. peel_close H.
  pose proof (U2 1 eq_refl (Nat.le_refl 1)) as U2'.
  pose proof (U3 2 eq_refl (Nat.le_refl 2)) as U3'.
  apply (one_literal _ _ L2 U2') in A2. subst point.
  exists (whole ++ "." ++ cents ++ "")%string, gs'. do 2 eexists.
  split; [reflexivity|]. split; [|exact H].
  exists whole, cents. rewrite append_empty_r. repeat split; auto; try lia.
  destruct whole; [cbn in L1; lia | discriminate].
Qed.

(** [(\w{3} \d{1,2})] captures three word characters, a space and one or
    two digits. *)
Lemma month_day_group_text (p : list Re.item) (s t : string) (gs : list string) :
  Re.exec (Re.GOpen :: Re.exactly 3 Re.Word :: Re.one (Re.Lit " ")
           :: Re.upto 1 2 Re.Digit :: Re.GClose :: p) s = Some (t, gs) ->
  exists m d gs' s' t',
    gs = (m ++ " " ++ d)%string :: gs' /\ month_text m /\ day_text d /\
    Re.exec p s' = Some (t', gs').
Proof.
  intros H. apply open_consumed in H. destruct H as (g & gs' & H & ->).
  peel_counted H m L1 U1 A1. peel_counted H sp L2 U2 A2.
  peel_counted H d L3 U3 A3. peel_close H.
  pose proof (U1 3 eq_refl (Nat.le_refl 3)) as U1'.
  pose proof (U2 1 eq_refl (Nat.le_refl 1)) as U2'.
  assert (U3' : String.length d <= 2) by (apply (U3 2 eq_refl); lia).
  apply (one_literal _ _ L2 U2') in A2. subst sp.
  exists m, d, gs'. do 2 eexists. rewrite append_empty_r.
  split; [reflexivity|]. split; [split; [lia | exact A1]|].
  split; [split; [lia | exact A3] | exact H].
Qed.

(** [(\d{1,2} \w{3})] captures one or two digits, a space and three word
    characters. *)
Lemma day_month_group_text (p : list Re.item) (s t : string) (gs : list string) :
  Re.exec (Re.GOpen :: Re.upto 1 2 Re.Digit :: Re.one (Re.Lit " ")
           :: Re.exactly 3 Re.Word :: Re.GClose :: p) s = Some (t, gs) ->
  exists d m gs' s' t',
    gs = (d ++ " " ++ m)%string :: gs' /\ day_text d /\ month_text m /\
    Re.exec p s' = Some (t', gs').
Proof.
  intros H. apply open_consumed in H. destruct H as (g & gs' & H & ->).
  peel_counted H d L1 U1 A1. peel_counted H sp L2 U2 A2.
  peel_counted H m L3 U3 A3. peel_close H.
  assert (U1' : String.length d <= 2) by (apply (U1 2 eq_refl); lia).
  pose proof (U2 1 eq_refl (Nat.le_refl 1)) as U2'.
  pose proof (U3 3 eq_refl (Nat.le_refl 3)) as U3'.
  apply (one_literal _ _ L2 U2') in A2. subst sp.
  exists d, m, gs'. do 2 eexists. rewrite append_empty_r.
  split; [reflexivity|]. split; [split; [lia | exact A1]|].
  split; [split; [lia | exact A3] | exact H].
Qed.

(** [(\w{3}\d{1,2})] captures three word characters and one or two
    digits, with nothing between. *)
Lemma monthday_group_text (p : list Re.item) (s t : string) (gs : list string) :
  Re.exec (Re.GOpen :: Re.exactly 3 Re.Word :: Re.upto 1 2 Re.Digit
           :: Re.GClose :: p) s = Some (t, gs) ->
  exists m d gs' s' t',
    gs = (m ++ d)%string :: gs' /\ month_text m /\ day_text d /\
    Re.exec p s' = Some (t', gs').
Proof.
  intros H. apply open_consumed in H. destruct H as (g & gs' & H & ->).
  peel_counted H m L1 U1 A1. peel_counted H d L3 U3 A3. peel_close H.
  pose proof (U1 3 eq_refl (Nat.le_refl 3)) as U1'.
  assert (U3' : String.length d <= 2) by (apply (U3 2 eq_refl); lia).
  exists m, d, gs'. do 2 eexists. rewrite append_empty_r.
  split; [reflexivity|]. split; [split; [lia | exact A1]|].
  split; [split; [lia | exact A3] | exact H].
Qed.

(** [\s+(.*?)\s+], the description between blanks. *)
Lemma description_group_text (p : list Re.item) (s t : string) (gs : list string) :
  Re.exec (Re.plus Re.Space :: Re.GOpen :: Re.lazy_star Re.AnyChar :: Re.GClose
           :: Re.plus Re.Space :: p) s = Some (t, gs) ->
  exists description gs' s' t',
    gs = description :: gs' /\ Re.exec p s' = Some (t', gs').
Proof.
  intros H. peel_item H.
  apply open_consumed in H. destruct H as (g & gs' & H & ->).
  peel_item H. peel_close H. peel_item H.
  eexists _, gs'. do 2 eexists. split; [reflexivity | exact H].
Qed.

Lemma decimal_text_not_empty (a : string) : decimal_text a -> a <> "".
Proof.
  intros (whole & cents & -> & N & _). destruct whole; [congruence | discriminate].
Qed.

Lemma commonwealth_bank_start_text (line : string) (t : RawTransaction) :
  commonwealth_bank_start line = Some t ->
  date_text commonwealth_bank (raw_date t) /\ decimal_text (raw_amount t).
Proof.
  unfold commonwealth_bank_start, Re.re_match.
  destruct (Re.exec commonwealth_bank_pattern line) as [[x gs]|] eqn:H; [|discriminate].
  cbn [option_map snd]. intros E. injection E as <-.
  unfold commonwealth_bank_pattern in H. cbn [app] in H.
  apply day_month_group_text in H. destruct H as (d & m & gs1 & s1 & t1 & -> & D & M & H).
  apply description_group_text in H. destruct H as (desc & gs2 & s2 & t2 & -> & H).
  apply decimal_group_text in H. destruct H as (debit & gs3 & s3 & t3 & -> & A & H).
  cbn [app] in H. peel_item H.
  apply decimal_group_text in H. destruct H as (credit & gs4 & s4 & t4 & -> & _ & H).
  cbn [group nth raw_date raw_amount fst snd]. split; [now exists m, d|].
  pose proof (decimal_text_not_empty _ A) as N.
  destruct debit; [congruence | exact A].
Qed.

Lemma credit_card_start_text (line : string) (t : RawTransaction) :
  credit_card_start line = Some t ->
  date_text credit_card (raw_date t) /\ decimal_text (raw_amount t).
Proof.
  unfold credit_card_start, Re.re_match.
  destruct (Re.exec credit_card_pattern line) as [[x gs]|] eqn:H; [|discriminate].
  cbn [option_map snd]. intros E. injection E as <-.
  unfold credit_card_pattern in H. cbn [app] in H.
  apply open_consumed in H. destruct H as (ref & gs0 & H & ->).
  peel_item H. peel_close H. peel_item H.
  apply month_day_group_text in H. destruct H as (m & d & gs1 & s1 & t1 & -> & M & D & H).
  peel_item H.
  apply month_day_group_text in H. destruct H as (m' & d' & gs2 & s2 & t2 & -> & _ & _ & H).
  apply description_group_text in H. destruct H as (desc & gs3 & s3 & t3 & -> & H).
  apply decimal_group_text in H. destruct H as (amount & gs4 & s4 & t4 & -> & A & H).
  cbn [group nth raw_date raw_amount fst snd]. split; [now exists m, d | exact A].
Qed.

Lemma debit_card_start_text (line : string) (t : RawTransaction) :
  debit_card_start line = Some t ->
  date_text debit_card (raw_date t) /\ decimal_text (raw_amount t).
Proof.
  unfold debit_card_start, Re.re_match.
  destruct (Re.exec debit_card_pattern line) as [[x gs]|] eqn:H; [|discriminate].
  cbn [option_map snd]. intros E. injection E as <-.
  unfold debit_card_pattern in H. cbn [app] in H.
  apply monthday_group_text in H. destruct H as (m & d & gs1 & s1 & t1 & -> & M & D & H).
  apply description_group_text in H. destruct H as (desc & gs2 & s2 & t2 & -> & H).
  apply decimal_group_text in H. destruct H as (amount & gs3 & s3 & t3 & -> & A & H).
  cbn [group nth raw_date raw_amount fst snd]. split; [now exists m, d | exact A].
Qed.

Lemma start_of_text (statement_format : StatementFormat) (line : string)
      (t : RawTransaction) :
  start_of statement_format line = Some t ->
  date_text statement_format (raw_date t) /\ decimal_text (raw_amount t).
Proof.
  destruct statement_format; cbn [start_of].
  - apply commonwealth_bank_start_text.
  - apply credit_card_start_text.
  - apply debit_card_start_text.
Qed.

Lemma parsed_text (statement_format : StatementFormat) (lines : list string)
      (t : RawTransaction) :
  In t (parse_transactions statement_format lines) ->
  date_text statement_format (raw_date t) /\ decimal_text (raw_amount t).
Proof.
  rewrite parse_transactions_loop. intros I.
  destruct (transactions_from_origin _ _ _ I) as (line & m & _ & S & -> & ->).
  exact (start_of_text _ _ _ S).
Qed.

(** X4: whatever the lines, every transaction a parser emits has a date text
    of the pattern's layout and an amount that is a decimal text: digits
    and commas, a point, two digits, and so no sign.  A continuation line
    changes neither. *)
Theorem parsed_dates_and_amounts
        (statement_format : StatementFormat) (lines : list string) :
  Forall (fun t => date_text statement_format (raw_date t)
                   /\ decimal_text (raw_amount t))
         (parse_transactions statement_format lines).
Proof.
  apply Forall_forall. intros t I. now apply (parsed_text statement_format lines).
Qed.

(* ------------------------------------------------------------------ *)
(** ** Captured dates, converted *)

(** A property of characters that holds of the 256 of them. *)
Lemma every_character (P : ascii -> bool) :
  forallb (fun n => P (ascii_of_nat n)) (seq 0 256) = true ->
  forall c, P c = true.
Proof.
  intros H c. rewrite forallb_forall in H.
  rewrite <- (ascii_nat_embedding c). apply H, in_seq.
  pose proof (nat_ascii_bounded c). lia.
Qed.

Lemma word_is_not_blank (c : ascii) :
  Re.accepts Re.Word c = true -> Text.isspace c = false.
Proof.
  intros W.
  pose proof (every_character
                (fun c => implb (Re.accepts Re.Word c) (negb (Text.isspace c)))
                eq_refl c) as H.
  cbv beta in H. rewrite W in H. now apply negb_true_iff in H.
Qed.

Lemma digit_is_plain (c : ascii) :
  Re.accepts Re.Digit c = true ->
  Text.isspace c = false /\ Pandas.blank c = false /\ Ascii.eqb "," c = false
  /\ Pandas.sign (String c "") = (false, String c "").
Proof.
  intros W.
  pose proof (every_character
                (fun c => implb (Re.accepts Re.Digit c)
                            (negb (Text.isspace c) && negb (Pandas.blank c)
                             && negb (Ascii.eqb "," c)
                             && (let '(negative, rest) := Pandas.sign (String c "") in
                                 negb negative && String.eqb rest (String c ""))))
                eq_refl c) as H.
  cbv beta in H. rewrite W in H. cbn [implb] in H.
  destruct (Pandas.sign (String c "")) as [negative rest].
  repeat match goal with
         | X : _ && _ = true |- _ => apply andb_true_iff in X; destruct X
         | X : negb _ = true |- _ => apply negb_true_iff in X
         | X : String.eqb _ _ = true |- _ => apply String.eqb_eq in X
         end.
  subst. auto.
Qed.

Lemma accepted_no_blank (k : Re.cls) (w : string) :
  (forall c, Re.accepts k c = true -> Text.isspace c = false) ->
  all_accepted k w = true -> no_blank w = true.
Proof.
  intros K. induction w as [|c w IH]; [reflexivity|].
  cbn. intros A. apply andb_true_iff in A. destruct A as [A1 A2].
  now rewrite (K c A1), IH.
Qed.

Lemma no_blank_app (a b : string) :
  no_blank (a ++ b) = no_blank a && no_blank b.
Proof.
  induction a as [|c a IH]; [reflexivity|]. cbn. now rewrite IH, andb_assoc.
Qed.

Lemma debit_card_date_unparsed (date : string) :
  date_text debit_card date -> Pandas.to_datetime Pandas.fmt_b_d date = None.
Proof.
  intros (m & d & [_ M] & [_ D] & ->). apply month_day_needs_blank.
  rewrite no_blank_app.
  rewrite (accepted_no_blank Re.Word m word_is_not_blank M).
  rewrite (accepted_no_blank Re.Digit d (fun c A => proj1 (digit_is_plain c A)) D).
  reflexivity.
Qed.

(** X5: every row of a debit-card statement has the null date: the pattern
    captures the date without a blank between month and day, and the
    layout "%b %d" the normaliser reads it with asks for one. *)
Theorem debit_card_dates_are_null (lines : list string) :
  Forall (fun t => Pandas.to_datetime (date_layout debit_card) (raw_date t) = None)
         (parse_debit_card_transactions lines)
  /\ Forall (fun r => Date r = None)
            (normalize_transactions (parse_debit_card_transactions lines) debit_card)
  /\ Forall (fun r => Date r = None) (analyse debit_card lines).
Proof.
  assert (P : Forall (fun t => Pandas.to_datetime (date_layout debit_card) (raw_date t)
                               = None)
                     (parse_debit_card_transactions lines)).
  { apply Forall_forall. intros t I.
    apply debit_card_date_unparsed. exact (proj1 (parsed_text debit_card lines t I)). }
  assert (N : Forall (fun r => Date r = None)
                (normalize_transactions (parse_debit_card_transactions lines)
                   debit_card)).
  { rewrite normalize_transactions_rowwise. apply Forall_forall. intros r I.
    apply in_map_iff in I. destruct I as (t & <- & I). apply filter_In in I.
    rewrite Forall_forall in P. exact (P t (proj1 I)). }
  split; [exact P | split; [exact N|]].
  unfold analyse, categorize_expenses. cbn [parse_transactions].
  apply Forall_forall. intros r I. apply in_map_iff in I.
  destruct I as (r0 & <- & I). rewrite Forall_forall in N. exact (N r0 I).
Qed.

(* ------------------------------------------------------------------ *)
(** ** One pattern per line *)

Lemma start_of_matched (statement_format : StatementFormat) (line : string) :
  start_of statement_format line <> None ->
  exists x gs,
    Re.exec match statement_format with
            | credit_card => credit_card_pattern
            | debit_card => debit_card_pattern
            | commonwealth_bank => commonwealth_bank_pattern
            end line = Some (x, gs).
Proof.
  destruct statement_format; cbn [start_of];
    unfold commonwealth_bank_start, credit_card_start, debit_card_start, Re.re_match;
    match goal with
    | |- context [Re.exec ?p line] => destruct (Re.exec p line) as [[x gs]|]
    end; cbn [option_map]; intros N; solve [eauto | congruence].
Qed.

(** A credit-card line starts with three digits and a blank. *)
Lemma credit_card_line_head (line x : string) (gs : list string) :
  Re.exec credit_card_pattern line = Some (x, gs) ->
  exists r0 r1 r2 b rest,
    line = String r0 (String r1 (String r2 (String b rest))) /\
    Re.accepts Re.Digit r0 = true /\ Re.accepts Re.Digit r1 = true /\
    Re.accepts Re.Digit r2 = true /\ Text.isspace b = true.
Proof.
  unfold credit_card_pattern. cbn [app]. intros H.
  apply open_consumed in H. destruct H as (g & gs' & H & ->).
  peel_counted H r L1 U1 A1. peel_close H. peel_counted H sp L2 U2 A2.
  pose proof (U1 3 eq_refl (Nat.le_refl 3)) as U1'.
  destruct r as [|r0 [|r1 [|r2 [|r3 r]]]]; cbn in L1, U1'; try lia.
  destruct sp as [|b sp]; [cbn in L2; lia|].
  cbn [all_accepted] in A1, A2.
  repeat match goal with
         | X : _ && _ = true |- _ => apply andb_true_iff in X; destruct X
         end.
  exists r0, r1, r2, b. eexists. cbn [String.append]. split; [reflexivity|].
  cbn [Re.accepts] in *. auto.
Qed.

(** A debit-card line starts with three word characters and a digit. *)
Lemma debit_card_line_head (line x : string) (gs : list string) :
  Re.exec debit_card_pattern line = Some (x, gs) ->
  exists m0 m1 m2 d rest,
    line = String m0 (String m1 (String m2 (String d rest))) /\
    Re.accepts Re.Word m0 = true /\ Re.accepts Re.Word m1 = true /\
    Re.accepts Re.Word m2 = true /\ Re.accepts Re.Digit d = true.
Proof.
  unfold debit_card_pattern. cbn [app]. intros H.
  apply open_consumed in H. destruct H as (g & gs' & H & ->).
  peel_counted H m L1 U1 A1. peel_counted H ds L2 U2 A2.
  pose proof (U1 3 eq_refl (Nat.le_refl 3)) as U1'.
  destruct m as [|m0 [|m1 [|m2 [|m3 m]]]]; cbn in L1, U1'; try lia.
  destruct ds as [|d ds]; [cbn in L2; lia|].
  cbn [all_accepted] in A1, A2.
  repeat match goal with
         | X : _ && _ = true |- _ => apply andb_true_iff in X; destruct X
         end.
  exists m0, m1, m2, d. eexists. cbn [String.append]. split; [reflexivity|].
  cbn [Re.accepts] in *. auto.
Qed.

(** A CommonwealthBank line starts with one or two digits and a space. *)
Lemma commonwealth_bank_line_head (line x : string) (gs : list string) :
  Re.exec commonwealth_bank_pattern line = Some (x, gs) ->
  exists d0 rest,
    Re.accepts Re.Digit d0 = true /\
    (line = String d0 (String " " rest)
     \/ exists d1, Re.accepts Re.Digit d1 = true
                   /\ line = String d0 (String d1 (String " " rest))).
Proof.
  unfold commonwealth_bank_pattern. cbn [app]. intros H.
  apply open_consumed in H. destruct H as (g & gs' & H & ->).
  peel_counted H ds L1 U1 A1. peel_counted H sp L2 U2 A2.
  assert (U1' : String.length ds <= 2) by (apply (U1 2 eq_refl); lia).
  pose proof (U2 1 eq_refl (Nat.le_refl 1)) as U2'.
  apply (one_literal _ _ L2 U2') in A2. subst sp.
  destruct ds as [|d0 [|d1 [|d2 ds]]]; cbn in L1, U1'; try lia;
    cbn [all_accepted] in A1;
    repeat match goal with
           | X : _ && _ = true |- _ => apply andb_true_iff in X; destruct X
           end;
    exists d0; eexists; (split; [assumption|]); cbn [String.append].
  - left. reflexivity.
  - right. exists d1. split; [assumption | reflexivity].
Qed.

Lemma space_is_no_word_or_digit :
  Re.accepts Re.Word " " = false /\ Re.accepts Re.Digit " " = false.
Proof. split; reflexivity. Qed.

(** No line starts a transaction for two formats. *)
Lemma one_format_per_line (f1 f2 : StatementFormat) (line : string) :
  start_of f1 line <> None -> start_of f2 line <> None -> f1 = f2.
Proof.
  intros M1 M2.
  apply start_of_matched in M1. destruct M1 as (x1 & gs1 & M1).
  apply start_of_matched in M2. destruct M2 as (x2 & gs2 & M2).
  destruct space_is_no_word_or_digit as [SW SD].
  destruct f1, f2; try reflexivity; exfalso;
    repeat match goal with
           | H : Re.exec credit_card_pattern _ = _ |- _ =>
               apply credit_card_line_head in H;
               destruct H as (r0 & r1 & r2 & b & rest & -> & R0 & R1 & R2 & B)
           | H : Re.exec debit_card_pattern _ = _ |- _ =>
               apply debit_card_line_head in H;
               destruct H as (m0 & m1 & m2 & d & rest' & E & W0 & W1 & W2 & D)
           | H : Re.exec commonwealth_bank_pattern _ = _ |- _ =>
               apply commonwealth_bank_line_head in H;
               destruct H as (d0 & rest'' & D0 & [E' | (d1 & D1 & E')])
           end;
    repeat match goal with
           | E : String _ _ = String _ _ |- _ => injection E as ? ?; subst
           | E : _ = String _ _ |- _ => subst
           end;
    try congruence;
    match goal with
    | D : Re.accepts Re.Digit ?c = true, B : Text.isspace ?c = true |- _ =>
        destruct (digit_is_plain c D) as (N & _); congruence
    end.
Qed.

(** X7: a line that starts a transaction for one format starts none for
    another, so a statement read with the parser of another format, as
    after a wrong detection, gives no transaction for any line of its
    own format. *)
Theorem formats_do_not_overlap (f1 f2 : StatementFormat) (lines : list string) :
  f1 <> f2 ->
  Forall (fun line => start_of f1 line <> None \/ start_of f2 line = None) lines ->
  Forall (fun line => start_of f1 line <> None -> start_of f2 line = None) lines
  /\ parse_transactions f2 lines = [].
Proof.
  intros N F.
  assert (E : Forall (fun line => start_of f2 line = None) lines).
  { eapply Forall_impl; [|exact F]. intros line [M | M]; [|exact M].
    destruct (start_of f2 line) eqn:S; [|reflexivity].
    exfalso. apply N. apply (one_format_per_line f1 f2 line M). congruence. }
  split.
  - eapply Forall_impl; [|exact E]. auto.
  - rewrite parse_transactions_loop. now apply transactions_from_nil.
Qed.

(** A debit-card statement without the "OpeningBalance" line is taken for
    a credit-card statement, and the credit-card parser finds nothing. *)
Lemma formats_do_not_overlap_witness :
  detect_statement_format ["Account activity"; "Jan6 Purchase 4.50 95.50"; "TIM HORTONS"]
  = credit_card
  /\ parse_transactions debit_card
       ["Account activity"; "Jan6 Purchase 4.50 95.50"; "TIM HORTONS"]
     = [("Jan6", "Purchase TIM HORTONS", "4.50")]
  /\ parse_transactions credit_card
       ["Account activity"; "Jan6 Purchase 4.50 95.50"; "TIM HORTONS"] = [].
Proof.
  split; [reflexivity|]. split; [reflexivity|].
  refine (proj2 (formats_do_not_overlap debit_card credit_card
                   ["Account activity"; "Jan6 Purchase 4.50 95.50"; "TIM HORTONS"]
                   _ _)).
  - discriminate.
  - repeat constructor; now right.
Defined.

(* ------------------------------------------------------------------ *)
(** ** Exclusions and descriptions of the other formats *)

Lemma mentions_one (word text : string) :
  mentions_any [word] text <-> occurs_ignoring_case word text.
Proof.
  unfold mentions_any. split.
  - intros (w & [<- | []] & O). exact O.
  - intros O. exists word. split; [now left | exact O].
Qed.

Lemma mentions_two (word1 word2 text : string) :
  mentions_any [word1; word2] text <->
  occurs_ignoring_case word1 text \/ occurs_ignoring_case word2 text.
Proof.
  unfold mentions_any. split.
  - intros (w & [<- | [<- | []]] & O); [now left | now right].
  - intros [O | O]; [exists word1 | exists word2]; (split; [cbn; tauto | exact O]).
Qed.

(** X10: of the credit-card rows exactly those survive, in order, whose amount
    parses and whose raw description has no "PAYMENT FROM" in any letter
    case; of the CommonwealthBank rows, those whose amount parses and whose
    raw description has neither "OPENING BALANCE" nor "DEBIT INTEREST".
    In both formats the description becomes its first three tokens,
    joined by single spaces, with nothing taken out of it. *)
Theorem credit_card_and_commonwealth_bank_rows (transactions : list RawTransaction) :
  normalize_transactions transactions credit_card
  = map (normal_row credit_card) (filter (survives credit_card) transactions)
  /\ normalize_transactions transactions commonwealth_bank
     = map (normal_row commonwealth_bank) (filter (survives commonwealth_bank) transactions)
  /\ (forall t,
         (survives credit_card t = true <->
          Pandas.isna (amount_value t) = false /\
          ~ occurs_ignoring_case "PAYMENT FROM" (raw_description t))
         /\ (survives commonwealth_bank t = true <->
             Pandas.isna (amount_value t) = false /\
             ~ occurs_ignoring_case "OPENING BALANCE" (raw_description t) /\
             ~ occurs_ignoring_case "DEBIT INTEREST" (raw_description t))
         /\ Description (normal_row credit_card t)
            = Text.join " " (firstn 3 (Text.split (raw_description t)))
         /\ Description (normal_row commonwealth_bank t)
            = Text.join " " (firstn 3 (Text.split (raw_description t)))).
Proof.
  split; [apply normalize_transactions_rowwise|].
  split; [apply normalize_transactions_rowwise|].
  intros t. rewrite !survives_spec. cbn [exclusions].
  unfold credit_card_exclusions, commonwealth_bank_exclusions.
  rewrite mentions_one, mentions_two. repeat split; tauto.
Qed.

Lemma final_description_tokens (statement_format : StatementFormat) (description : string) :
  exists text, final_description statement_format description
               = Text.join " " (first_tokens text).
Proof. destruct statement_format; cbn [final_description]; eauto. Qed.

(** X11: every description in a normalized table is in normal form: at most
    three tokens, joined by single spaces with no blank before or after,
    so truncating it again changes nothing. *)
Theorem normalized_descriptions
        (transactions : list RawTransaction) (statement_format : StatementFormat) :
  Forall (fun r =>
            List.length (Text.split (Description r)) <= 3
            /\ Description r = Text.join " " (Text.split (Description r))
            /\ truncate_words (Description r) = Description r)
         (normalize_transactions transactions statement_format).
Proof.
  rewrite normalize_transactions_rowwise. apply Forall_forall. intros r I.
  apply in_map_iff in I. destruct I as (t & <- & _). cbn [normal_row Description].
  destruct (final_description_tokens statement_format (raw_description t)) as (text & ->).
  unfold truncate_words. rewrite split_truncated. unfold first_tokens.
  rewrite firstn_firstn. cbn [Nat.min].
  repeat split; auto. apply firstn_le_length.
Qed.

Lemma occurs_ignoring_case_inside (word a x b : string) :
  occurs_ignoring_case word x -> occurs_ignoring_case word (a ++ x ++ b).
Proof.
  intros (pre & mid & post & -> & L).
  exists (a ++ pre)%string, mid, (post ++ b)%string. split; [|exact L].
  now rewrite !append_assoc.
Qed.

Lemma appended_member (texts : list string) (c : string) :
  In c texts ->
  exists a b, appended texts = (a ++ Text.strip c ++ b)%string.
Proof.
  intros I. apply in_split in I. destruct I as (xs & ys & ->).
  rewrite appended_app. cbn [appended fold_right].
  exists (appended xs ++ " ")%string, (appended ys). now rewrite !append_assoc.
Qed.

(** X12: a marker of the format in a continuation line removes the whole
    transaction: the exclusion is tested on the description with its
    continuation lines appended. *)
Theorem marker_in_continuation_drops_transaction
        (statement_format : StatementFormat) (m : string) (cs : list string)
        (t : RawTransaction) (c marker : string) :
  start_of statement_format m = Some t ->
  Forall (fun line => start_of statement_format line = None) cs ->
  In c cs ->
  In marker (exclusions statement_format) ->
  occurs_ignoring_case marker (Text.strip c) ->
  normalize_transactions (parse_transactions statement_format (m :: cs)) statement_format
  = [].
Proof.
  intros M C I K O. rewrite parse_transactions_loop. cbn [transactions_from].
  rewrite M. destruct t as [[d desc] a].
  rewrite continuation_lines_all by exact C.
  assert (E : transactions_from (start_of statement_format) cs = []).
  { now apply transactions_from_nil. }
  rewrite E, normalize_transactions_rowwise. cbn [filter].
  assert (S : survives statement_format (d, (desc ++ appended cs)%string, a) = false).
  { unfold survives. cbn [raw_description fst snd].
    replace (str_contains (exclusions statement_format) (desc ++ appended cs)) with true;
      [apply andb_false_r|].
    symmetry. apply str_contains_mentions_any. exists marker. split; [exact K|].
    destruct (appended_member cs c I) as (x & y & ->).
    rewrite <- (append_assoc desc x).
    now apply (occurs_ignoring_case_inside marker (desc ++ x) (Text.strip c) y). }
  now rewrite S.
Qed.

Lemma marker_in_continuation_drops_transaction_witness :
  normalize_transactions
    (parse_transactions debit_card ["Jan6 Purchase 4.50 95.50"; " refund DEPOSIT "])
    debit_card = [].
Proof.
  refine (marker_in_continuation_drops_transaction debit_card
            "Jan6 Purchase 4.50 95.50" [" refund DEPOSIT "]
            ("Jan6", "Purchase", "4.50") " refund DEPOSIT " "Deposit"
            eq_refl _ _ _ _).
  - repeat constructor.
  - now left.
  - cbn. tauto.
  - apply find_occurs_ignoring_case. reflexivity.
Defined.

(* ------------------------------------------------------------------ *)
(** ** The table against the normaliser *)

(** X14: every keyword of the table can be met by a normalized description:
    it has at most three tokens separated by single spaces, so truncation
    to three tokens leaves it whole, and no keyword of an earlier category
    occurs inside it, so a description that is the keyword gets the
    keyword's own category. *)
Theorem keywords_fit_normalized_descriptions
        (category : string) (keywords : list string) (keyword : string) :
  In (category, keywords) categories ->
  In keyword keywords ->
  truncate_words keyword = keyword
  /\ List.length (Text.split keyword) <= 3
  /\ get_category keyword = category
  /\ get_category (truncate_words keyword) = category.
Proof.
  assert (A : forallb (fun entry =>
                forallb (fun k => String.eqb (truncate_words k) k
                                  && (List.length (Text.split k) <=? 3)
                                  && String.eqb (get_category k) (fst entry))
                        (snd entry))
              categories = true) by (vm_compute; reflexivity).
  intros C K. rewrite forallb_forall in A. specialize (A _ C).
  cbn [snd fst] in A. rewrite forallb_forall in A. specialize (A _ K).
  apply andb_true_iff in A. destruct A as [A G].
  apply andb_true_iff in A. destruct A as [T L].
  apply String.eqb_eq in T, G. apply Nat.leb_le in L.
  rewrite T. auto.
Qed.

Lemma keywords_fit_normalized_descriptions_witness :
  truncate_words "banter ice cream" = "banter ice cream"
  /\ get_category "banter ice cream" = "Dining/Takeout".
Proof.
  destruct (keywords_fit_normalized_descriptions
              "Dining/Takeout"
              ["restaurant"; "cafe"; "tim hortons"; "popeyes"; "banter ice cream"]
              "banter ice cream")
    as (T & _ & G & _).
  - cbn. tauto.
  - cbn. tauto.
  - split; [exact T | exact G].
Defined.
